(** * mgc: permutation tests of independence

    A shallow embedding of the permutation-test engine of the [mgc]
    package ([independence/base.py], [ksample/base.py]), of the HHG
    statistic ([independence/hhg.py]) and of the kernel test
    ([independence/hsic.py]), together with the properties the design
    document states about them.

    Conventions of the embedding.
    - A float is an exact rational ([Q]); statements about statistics
      and p-values use the rational equality [==].  NaN does not exist
      in validated data and is only present in raw, unvalidated input.
    - A machine integer of the [@njit] kernel is an unbounded [Z]: the
      cell counts are at most the sample size [n], and the products
      formed from them stay within 64 bits for [n] up to 10000.
    - A 2-D numpy array is the list of its rows; the statistic is read
      on arrays of one shape, where no index is out of range.
    - numpy's process-wide random generator is an explicit state that
      every draw consumes and returns. *)

From Stdlib Require Import String List ZArith QArith Qabs Lia Bool Permutation.
Import ListNotations.

Local Open Scope Z_scope.

(** ** numpy arrays *)

Module np.

(** A validated 2-D float array, row after row. *)
Definition ndarray := list (list Q).

(** [a.shape[0]] *)
Definition shape0 (a : ndarray) : nat := length a.

(** [a[i, :]] *)
Definition row (a : ndarray) (i : nat) : list Q := nth i a [].

(** [a[i, j]] *)
Definition item (a : ndarray) (i j : nat) : Q := nth j (row a i) 0%Q.

(** [r <= v] for a row [r] and a scalar [v]: the boolean array, its
    entries written 1 and 0 as numpy's arithmetic on booleans reads
    them. *)
Definition le_scalar (r : list Q) (v : Q) : list Z :=
  map (fun d => if Qle_bool d v then 1 else 0) r.

(** [u * v], element by element, for vectors of one length. *)
Definition mul (u v : list Z) : list Z :=
  map (fun p => fst p * snd p) (combine u v).

(** [1 - u] *)
Definition one_minus (u : list Z) : list Z := map (fun e => 1 - e) u.

(** [np.sum] of an integer vector. *)
Definition sum (u : list Z) : Z := fold_right Z.add 0 u.

(** Sum of a list of floats. *)
Definition fsum (l : list Q) : Q := fold_right Qplus 0%Q l.

(** [np.sum] of a 2-D float array: every entry is added. *)
Definition sum2 (a : ndarray) : Q := fsum (concat a).

(** An [n]-by-[n] array. *)
Definition square (n : nat) (a : ndarray) : Prop :=
  length a = n /\ Forall (fun r => length r = n) a.



End np.

(** ** The HHG statistic ([hhg.py], [_hhg]) *)

(** The body of the double loop for one pair [(i, j)]: the value stored
    in [S[i, j]], which stays at the 0 of [np.zeros] when [i = j] or
    when the denominator is not positive. *)
Definition _hhg_entry (n : nat) (distx disty : np.ndarray) (i j : nat) : Q :=
  if Nat.eqb i j then 0%Q
  else
    let a := np.le_scalar (np.row distx i) (np.item distx i j) in
    let b := np.le_scalar (np.row disty i) (np.item disty i j) in
    let t11 := np.sum (np.mul a b) - 2 in
    let t12 := np.sum (np.mul a (np.one_minus b)) in
    let t21 := np.sum (np.mul (np.one_minus a) b) in
    let t22 := np.sum (np.mul (np.one_minus a) (np.one_minus b)) in
    let denom := (t11 + t12) * (t21 + t22) * (t11 + t21) * (t12 + t22) in
    if 0 <? denom
    then (inject_Z ((Z.of_nat n - 2) * (t12 * t21 - t11 * t22) ^ 2)
          / inject_Z denom)%Q
    else 0%Q.

Definition _hhg (distx disty : np.ndarray) : Q :=
  let n := np.shape0 distx in
  let S := map (fun i => map (fun j => _hhg_entry n distx disty i j)
                             (seq 0 n)) (seq 0 n) in
  np.sum2 S.

(** ** Python values, exceptions and objects *)

(** The exceptions the modelled code raises. *)
Inductive exn : Type := ValueError | TypeError | AttributeError.

Definition result (A : Type) : Type := (exn + A)%type.

(** What a caller may pass where the code expects a metric: a callable,
    or some other object, of which only its truth value matters.
    Python's [None] is the [None] of [option metric]. *)
Inductive metric : Type :=
| Callable (f : np.ndarray -> np.ndarray)
| NotCallable (truthy : bool).

(** [not m] *)
Definition py_not (m : option metric) : bool :=
  match m with
  | None => true
  | Some (Callable _) => false
  | Some (NotCallable truthy) => negb truthy
  end.

(** What a caller may pass for [x], [y] and [reps] before validation.
    The entries of a raw array may be NaN (written [None]). *)
Inductive pyobj : Type :=
| PyNone
| PyInt (z : Z)
| PyStr (s : string)
| PyList (l : list Q)
| PyArray (a : list (list (option Q))).

Definition of_array (a : np.ndarray) : pyobj := PyArray (map (map Some) a).

(** The instance attributes the test classes assign.  An attribute that
    is not set, or holds [None], is [None]; [is_distance] not set reads
    as [false]. *)
Module obj.
Record attrs : Type := mk {
  stat : option Q;
  pvalue : option Q;
  compute_distance : option metric;
  compute_kernel : option metric;
  is_distance : bool;
  x : option np.ndarray;
  y : option np.ndarray;
  null_dist : option (list Q)
}.

Definition empty : attrs := mk None None None None false None None None.

Definition set_stat (v : option Q) (o : attrs) : attrs :=
  mk v (pvalue o) (compute_distance o) (compute_kernel o) (is_distance o)
     (x o) (y o) (null_dist o).
Definition set_pvalue (v : option Q) (o : attrs) : attrs :=
  mk (stat o) v (compute_distance o) (compute_kernel o) (is_distance o)
     (x o) (y o) (null_dist o).
Definition set_compute_distance (v : option metric) (o : attrs) : attrs :=
  mk (stat o) (pvalue o) v (compute_kernel o) (is_distance o)
     (x o) (y o) (null_dist o).
Definition set_compute_kernel (v : option metric) (o : attrs) : attrs :=
  mk (stat o) (pvalue o) (compute_distance o) v (is_distance o)
     (x o) (y o) (null_dist o).
Definition set_is_distance (v : bool) (o : attrs) : attrs :=
  mk (stat o) (pvalue o) (compute_distance o) (compute_kernel o) v
     (x o) (y o) (null_dist o).
Definition set_x (v : np.ndarray) (o : attrs) : attrs :=
  mk (stat o) (pvalue o) (compute_distance o) (compute_kernel o)
     (is_distance o) (Some v) (y o) (null_dist o).
Definition set_y (v : np.ndarray) (o : attrs) : attrs :=
  mk (stat o) (pvalue o) (compute_distance o) (compute_kernel o)
     (is_distance o) (x o) (Some v) (null_dist o).
Definition set_null_dist (v : list Q) (o : attrs) : attrs :=
  mk (stat o) (pvalue o) (compute_distance o) (compute_kernel o)
     (is_distance o) (x o) (y o) (Some v).
End obj.

(** ** Stateful, fallible computations *)

(** A computation over a state [S] that returns a value or raises; the
    state reached before an exception is kept, as Python keeps it. *)
Definition M (S A : Type) : Type := S -> result A * S.

Definition ret {S A : Type} (a : A) : M S A := fun s => (inr a, s).

Definition raise {S A : Type} (e : exn) : M S A := fun s => (inl e, s).

Definition bind {S A B : Type} (m : M S A) (k : A -> M S B) : M S B :=
  fun s =>
    match m s with
    | (inl e, s') => (inl e, s')
    | (inr a, s') => k a s'
    end.

Notation "v <- m ;; k" := (bind m (fun v => k))
  (at level 61, m at next level, right associativity).
Notation "m ;;; k" := (bind m (fun _ => k))
  (at level 61, right associativity).

Definition lift_result {S A : Type} (r : result A) : M S A :=
  fun s => (r, s).

(** [list(map(f, l))], left to right. *)
Fixpoint mapM {S A B : Type} (f : A -> M S B) (l : list A) : M S (list B) :=
  match l with
  | [] => ret []
  | a :: l' => b <- f a ;; bs <- mapM f l' ;; ret (b :: bs)
  end.

(** ** Collaborators outside the modelled files *)

(** numpy's global random generator: [np.random.permutation] reads the
    generator state, returns the rows of its argument in a drawn order
    and leaves the generator in a new state. *)
Class NumpyRandom : Type := {
  RNG : Type;
  permutation : RNG -> np.ndarray -> np.ndarray * RNG
}.

(** Functions that the modelled files import and whose source is not
    among them: the default metrics ([euclidean] of the package,
    [rbf_kernel] of scikit-learn), the input validation of
    [independence/_utils.py] and [_utils.py], the numeric kernel of the
    trace statistic, and the k-sample transform. *)
Class Collaborators : Type := {
  euclidean : np.ndarray -> np.ndarray;
  rbf_kernel : np.ndarray -> np.ndarray;
  (** [_CheckInputs(x, y, dim=2, reps=reps, compute_distance=cd)()] *)
  _CheckInputs : pyobj -> pyobj -> pyobj -> option metric ->
                 result (np.ndarray * np.ndarray);
  check_xy_distmat : np.ndarray -> np.ndarray -> result unit;
  _dcorr : np.ndarray -> np.ndarray -> Q;
  k_sample_transform : list np.ndarray -> result (np.ndarray * np.ndarray)
}.

(** The state a method of a test object runs in: the object's
    attributes and the generator. *)
Definition world `{NumpyRandom} : Type := (obj.attrs * RNG)%type.

Definition self_get `{NumpyRandom} {A : Type} (f : obj.attrs -> A)
  : M world A :=
  fun w => (inr (f (fst w)), w).

Definition self_set `{NumpyRandom} (f : obj.attrs -> obj.attrs)
  : M world unit :=
  fun w => (inr tt, (f (fst w), snd w)).

(** Reading an attribute that was never assigned. *)
Definition getattr `{NumpyRandom} {A : Type} (f : obj.attrs -> option A)
  : M world A :=
  fun w => match f (fst w) with
           | Some a => (inr a, w)
           | None => (inl AttributeError, w)
           end.

(** [np.random.permutation(a)] *)
Definition np_random_permutation `{NumpyRandom} {S : Type} (a : np.ndarray)
  : M (S * RNG) np.ndarray :=
  fun w => let (p, g) := permutation (snd w) a in (inr p, (fst w, g)).

(** Calling an object as a metric: [m(a)]. *)
Definition call {S : Type} (m : option metric) (a : np.ndarray)
  : M S np.ndarray :=
  match m with
  | Some (Callable f) => ret (f a)
  | _ => raise TypeError
  end.

(** [range(reps)]: a [TypeError] unless [reps] is an integer. *)
Definition py_int {S : Type} (reps : pyobj) : M S Z :=
  match reps with
  | PyInt z => ret z
  | _ => raise TypeError
  end.

Definition range (n : Z) : list Z := map Z.of_nat (seq 0 (Z.to_nat n)).

(** [MapWrapper(workers)(f, l)]: the results of [f] over [l], in the
    order of [l].  The pool is modelled by the sequential map that
    [workers = 1] selects. *)
Definition MapWrapper {S A B : Type} (workers : Z) (f : A -> M S B)
  (l : list A) : M S (list B) := mapM f l.

(** [(null_dist >= stat).sum()] *)
Definition count_ge (null_dist : list Q) (stat : Q) : Z :=
  Z.of_nat (length (filter (fun e => Qle_bool stat e) null_dist)).

(** Lines 103 to 108 of [base.py]: the fraction of the null distribution
    at or above the observed statistic, replaced by [1 / reps] when it
    is zero. *)
Definition p_value (null_dist : list Q) (stat : Q) (reps : Z) : Q :=
  let pvalue := (inject_Z (count_ge null_dist stat) / inject_Z reps)%Q in
  if Qeq_bool pvalue 0 then (1 / inject_Z reps)%Q else pvalue.

(** ** [independence/base.py] *)

Module IndependenceTest.
Section Methods.
Context `{NumpyRandom}.

(** The abstract method [_statistic(self, x, y)] of the subclass. *)
Variable _statistic : np.ndarray -> np.ndarray -> M world Q.

Definition __init__ (compute_distance : option metric)
  (self : obj.attrs) : obj.attrs :=
  obj.set_compute_distance compute_distance
    (obj.set_pvalue None (obj.set_stat None self)).

Definition _perm_stat (index : Z) : M world Q :=
  sx <- getattr obj.x ;;
  permx <- np_random_permutation sx ;;
  sy <- getattr obj.y ;;
  permy <- np_random_permutation sy ;;
  perm_stat <- _statistic permx permy ;;
  ret perm_stat.

(** For [reps = 0] Python divides by zero where the rationals give
    0; the properties below are about [reps >= 1]. *)
Definition test (x y : np.ndarray) (reps : pyobj) (workers : Z)
  : M world (Q * Q) :=
  self_set (obj.set_x x) ;;;
  self_set (obj.set_y y) ;;;
  stat <- _statistic x y ;;
  n <- py_int reps ;;
  null_dist <- MapWrapper workers _perm_stat (range n) ;;
  self_set (obj.set_null_dist null_dist) ;;;
  let pvalue := p_value null_dist stat n in
  self_set (obj.set_pvalue (Some pvalue)) ;;;
  ret (stat, pvalue).
End Methods.
End IndependenceTest.

(** ** [independence/hhg.py] *)

Module HHG.
Section Methods.
Context `{NumpyRandom} `{Collaborators}.

Definition __init__ (compute_distance : option metric)
  (self : obj.attrs) : obj.attrs :=
  let self := obj.set_is_distance false self in
  let self := if py_not compute_distance
              then obj.set_is_distance true self else self in
  IndependenceTest.__init__ compute_distance self.

Definition _statistic (x y : np.ndarray) : M world Q :=
  is_distance <- self_get obj.is_distance ;;
  dd <- (if negb is_distance
         then
           compute_distance <- self_get obj.compute_distance ;;
           distx <- call compute_distance x ;;
           disty <- call compute_distance y ;;
           ret (distx, disty)
         else ret (x, y)) ;;
  let stat := _hhg (fst dd) (snd dd) in
  self_set (obj.set_stat (Some stat)) ;;;
  ret stat.

Definition test (x y reps : pyobj) (workers : Z) : M world (Q * Q) :=
  compute_distance <- self_get obj.compute_distance ;;
  xy <- lift_result (_CheckInputs x y reps compute_distance) ;;
  is_distance <- self_get obj.is_distance ;;
  (if is_distance
   then lift_result (check_xy_distmat (fst xy) (snd xy))
   else ret tt) ;;;
  IndependenceTest.test _statistic (fst xy) (snd xy) reps workers.
End Methods.
End HHG.

(** ** The trace statistic test, [Dcorr] *)

(** Modelled from the spec: the class [Dcorr] of [independence/dcorr.py],
    which [hsic.py] and [ksample/base.py] import and which is not among
    the modelled files.  It is the test of the trace statistic: a
    subclass of [IndependenceTest] built with a [compute_distance]
    metric, whose statistic applies the metric unless the inputs are
    already pairwise matrices, and whose [test] validates the inputs
    and then runs the permutation test of the base class.  The numeric
    kernel is the collaborator [_dcorr]. *)
Module Dcorr.
Section Methods.
Context `{NumpyRandom} `{Collaborators}.

(** Modelled from the spec: [Dcorr.__init__(compute_distance)], absent
    from the modelled files; the metric [None] declares the inputs to
    be pairwise matrices. *)
Definition __init__ (compute_distance : option metric)
  (self : obj.attrs) : obj.attrs :=
  let self := obj.set_is_distance false self in
  let self := if py_not compute_distance
              then obj.set_is_distance true self else self in
  IndependenceTest.__init__ compute_distance self.

(** Modelled from the spec: [Dcorr._statistic], absent from the
    modelled files; the trace statistic of the two pairwise
    matrices. *)
Definition _statistic (x y : np.ndarray) : M world Q :=
  is_distance <- self_get obj.is_distance ;;
  dd <- (if negb is_distance
         then
           compute_distance <- self_get obj.compute_distance ;;
           distx <- call compute_distance x ;;
           disty <- call compute_distance y ;;
           ret (distx, disty)
         else ret (x, y)) ;;
  let stat := _dcorr (fst dd) (snd dd) in
  self_set (obj.set_stat (Some stat)) ;;;
  ret stat.

(** Modelled from the spec: [Dcorr.test], absent from the modelled
    files; validation first, then the permutation test of the base
    class. *)
Definition test (x y reps : pyobj) (workers : Z) : M world (Q * Q) :=
  compute_distance <- self_get obj.compute_distance ;;
  xy <- lift_result (_CheckInputs x y reps compute_distance) ;;
  is_distance <- self_get obj.is_distance ;;
  (if is_distance
   then lift_result (check_xy_distmat (fst xy) (snd xy))
   else ret tt) ;;;
  IndependenceTest.test _statistic (fst xy) (snd xy) reps workers.
End Methods.
End Dcorr.

(** ** [independence/hsic.py] *)

Module Hsic.
Section Methods.
Context `{NumpyRandom} `{Collaborators}.

Definition __init__ (compute_kernel : option metric)
  (self : obj.attrs) : obj.attrs :=
  obj.set_compute_kernel compute_kernel
    (obj.set_pvalue None (obj.set_stat None self)).

(** Runs [m] on a new local object [o]; the object is dropped when
    the method returns, the generator is shared. *)
Definition on_local {A : Type} (o : obj.attrs) (m : M world A)
  : M world (A * obj.attrs) :=
  fun w =>
    match m (o, snd w) with
    | (inl e, (_, g)) => (inl e, (fst w, g))
    | (inr a, (o', g)) => (inr (a, o'), (fst w, g))
    end.

(** [_statistic]: a whole test of the local [Dcorr] with the default
    [reps=1000] and [workers=-1], of which the statistic is kept. *)
Definition _statistic (x y : pyobj) : M world Q :=
  compute_kernel <- self_get obj.compute_kernel ;;
  let dcorr := Dcorr.__init__ compute_kernel obj.empty in
  r <- on_local dcorr (Dcorr.test x y (PyInt 1000) (-1)) ;;
  let stat := fst (fst r) in
  self_set (obj.set_stat (Some stat)) ;;;
  ret stat.

Definition test (x y reps : pyobj) (workers : Z) : M world (Q * Q) :=
  compute_kernel <- self_get obj.compute_kernel ;;
  let dcorr := Dcorr.__init__ compute_kernel obj.empty in
  r <- on_local dcorr (Dcorr.test x y reps workers) ;;
  let stat := fst (fst r) in
  let pvalue := snd (fst r) in
  self_set (obj.set_stat (Some stat)) ;;;
  self_set (obj.set_pvalue (Some pvalue)) ;;;
  ret (stat, pvalue).
End Methods.
End Hsic.

(** ** Classes and their instantiation with keyword arguments *)

Definition kwargs : Type := list (string * option metric).

(** A call binds every keyword to a parameter of that name; a keyword
    that names no parameter is a [TypeError]. *)
Definition accepts (params : list string) (kw : kwargs) : bool :=
  forallb (fun p => existsb (String.eqb (fst p)) params) kw.

(** The value bound to parameter [name]: the keyword's, or the
    default. *)
Definition kwarg (name : string) (default : option metric) (kw : kwargs)
  : option metric :=
  match find (fun p => String.eqb (fst p) name) kw with
  | Some (_, v) => v
  | None => default
  end.

(** The class objects a caller may pass as [indep_test]: the three that
    [ksample/base.py] imports, or any other class (such as [CCA] or
    [RV]), which is known by what calling it does and by the statistic
    its objects compute. *)
Module cls.
Inductive t : Type :=
| Dcorr
| HHG
| Hsic
| Other (init : kwargs -> result obj.attrs)
        (statistic : np.ndarray -> np.ndarray -> Q).

(** [a == b], used where [b] is one of the three imported classes. *)
Definition eqb (a b : t) : bool :=
  match a, b with
  | Dcorr, Dcorr | HHG, HHG | Hsic, Hsic => true
  | _, _ => false
  end.
End cls.

Section Instantiate.
Context `{NumpyRandom} `{Collaborators}.

(** Calling class [c] with the keywords [kw]: a new object of [c].
    [HHG.__init__] has the one parameter [compute_distance=euclidean]
    and [Hsic.__init__] the one parameter [compute_kernel=rbf_kernel].
    For [Dcorr] see the module above. *)
Definition instantiate (c : cls.t) (kw : kwargs) : result obj.attrs :=
  match c with
  | cls.HHG =>
      if accepts ["compute_distance"%string] kw
      then inr (HHG.__init__
                  (kwarg "compute_distance" (Some (Callable euclidean)) kw)
                  obj.empty)
      else inl TypeError
  | cls.Dcorr =>
      if accepts ["compute_distance"%string] kw
      then inr (Dcorr.__init__
                  (kwarg "compute_distance" (Some (Callable euclidean)) kw)
                  obj.empty)
      else inl TypeError
  | cls.Hsic =>
      if accepts ["compute_kernel"%string] kw
      then inr (Hsic.__init__
                  (kwarg "compute_kernel" (Some (Callable rbf_kernel)) kw)
                  obj.empty)
      else inl TypeError
  | cls.Other init _ => init kw
  end.

(** [o._statistic(a, b)] for an object [o] of class [c]. *)
Definition statistic_of (c : cls.t) (a b : np.ndarray) : M world Q :=
  match c with
  | cls.HHG => HHG._statistic a b
  | cls.Dcorr => Dcorr._statistic a b
  | cls.Hsic => Hsic._statistic (of_array a) (of_array b)
  | cls.Other _ statistic => ret (statistic a b)
  end.
End Instantiate.

(** ** [ksample/base.py] *)

Module KSampleTest.
Record attrs : Type := mk {
  stat : option Q;
  pvalue : option Q;
  compute_distance : option metric;
  indep_test : option (cls.t * obj.attrs);
  u : option np.ndarray;
  v : option np.ndarray;
  null_dist : option (list Q)
}.

Definition empty : attrs := mk None None None None None None None.

Definition set_pvalue (p : option Q) (o : attrs) : attrs :=
  mk (stat o) p (compute_distance o) (indep_test o) (u o) (v o)
     (null_dist o).
Definition set_indep_test (t : cls.t * obj.attrs) (o : attrs) : attrs :=
  mk (stat o) (pvalue o) (compute_distance o) (Some t) (u o) (v o)
     (null_dist o).
Definition set_u (a : np.ndarray) (o : attrs) : attrs :=
  mk (stat o) (pvalue o) (compute_distance o) (indep_test o) (Some a) (v o)
     (null_dist o).
Definition set_v (a : np.ndarray) (o : attrs) : attrs :=
  mk (stat o) (pvalue o) (compute_distance o) (indep_test o) (u o) (Some a)
     (null_dist o).
Definition set_null_dist (l : list Q) (o : attrs) : attrs :=
  mk (stat o) (pvalue o) (compute_distance o) (indep_test o) (u o) (v o)
     (Some l).

Section Methods.
Context `{NumpyRandom} `{Collaborators}.

Definition ks_world : Type := (attrs * RNG)%type.

Definition __init__ (indep_test : cls.t)
  (compute_distance : option metric) (self : attrs) : result attrs :=
  let self := mk None None compute_distance (KSampleTest.indep_test self)
                 (u self) (v self) (null_dist self) in
  let dist_tests := [cls.Dcorr; cls.HHG; cls.Hsic] in
  if existsb (cls.eqb indep_test) dist_tests
  then
    match instantiate indep_test
            [("compute_distance"%string, compute_distance)] with
    | inl e => inl e
    | inr o => inr (set_indep_test (indep_test, o) self)
    end
  else
    match instantiate indep_test [] with
    | inl e => inl e
    | inr o => inr (set_indep_test (indep_test, o) self)
    end.

Definition ks_set (f : attrs -> attrs) : M ks_world unit :=
  fun w => (inr tt, (f (fst w), snd w)).

Definition ks_getattr {A : Type} (f : attrs -> option A)
  : M ks_world A :=
  fun w => match f (fst w) with
           | Some a => (inr a, w)
           | None => (inl AttributeError, w)
           end.

(** [self.indep_test._statistic(a, b)]: the method runs on the
    stored test object, which keeps what the method assigns. *)
Definition indep_statistic (a b : np.ndarray) : M ks_world Q :=
  fun w =>
    match KSampleTest.indep_test (fst w) with
    | None => (inl AttributeError, w)
    | Some (c, o) =>
        match statistic_of c a b (o, snd w) with
        | (r, (o', g)) => (r, (set_indep_test (c, o') (fst w), g))
        end
    end.

Definition _perm_stat (index : Z) : M ks_world Q :=
  su <- ks_getattr u ;;
  permu <- np_random_permutation su ;;
  sv <- ks_getattr v ;;
  permv <- np_random_permutation sv ;;
  perm_stat <- indep_statistic permu permv ;;
  ret perm_stat.

Definition test (inputs : list np.ndarray) (reps : pyobj) (workers : Z)
  : M ks_world (Q * Q) :=
  uv <- lift_result (k_sample_transform inputs) ;;
  ks_set (set_u (fst uv)) ;;;
  ks_set (set_v (snd uv)) ;;;
  obs_stat <- indep_statistic (fst uv) (snd uv) ;;
  n <- py_int reps ;;
  null_dist <- MapWrapper workers _perm_stat (range n) ;;
  ks_set (set_null_dist null_dist) ;;;
  let pvalue := p_value null_dist obs_stat n in
  ks_set (set_pvalue (Some pvalue)) ;;;
  ret (obs_stat, pvalue).
End Methods.
End KSampleTest.

(** The loop body of [_hhg] read through index functions: the rows are
    [fx i] and [fy i], and the points compared are those of [idx]. *)
Definition indicator (r : nat -> Q) (v : Q) (k : nat) : Z :=
  if Qle_bool (r k) v then 1 else 0.

Definition entry_on (idx : list nat) (n : nat) (fx fy : nat -> nat -> Q)
  (i j : nat) : Q :=
  if Nat.eqb i j then 0%Q
  else
    let a := indicator (fx i) (fx i j) in
    let b := indicator (fy i) (fy i j) in
    let t11 := np.sum (map (fun k => a k * b k) idx) - 2 in
    let t12 := np.sum (map (fun k => a k * (1 - b k)) idx) in
    let t21 := np.sum (map (fun k => (1 - a k) * b k) idx) in
    let t22 := np.sum (map (fun k => (1 - a k) * (1 - b k)) idx) in
    let denom := (t11 + t12) * (t21 + t22) * (t11 + t21) * (t12 + t22) in
    if 0 <? denom
    then (inject_Z ((Z.of_nat n - 2) * (t12 * t21 - t11 * t22) ^ 2)
          / inject_Z denom)%Q
    else 0%Q.

(** ** The statistic as the design document words it *)

(** The number of points [k] among the [n] that satisfy [p]. *)
Definition cell (n : nat) (p : nat -> bool) : Z :=
  Z.of_nat (length (filter p (seq 0 n))).

(** [S(i, j)] of the document: the four cells count the points [k] by
    whether [distx[i,k] <= distx[i,j]] and [disty[i,k] <= disty[i,j]],
    [t11] less 2, and the contribution is 0 when the denominator
    is 0. *)
Definition S_doc (n : nat) (distx disty : np.ndarray) (i j : nat) : Q :=
  let inx k := Qle_bool (np.item distx i k) (np.item distx i j) in
  let iny k := Qle_bool (np.item disty i k) (np.item disty i j) in
  let t11 := cell n (fun k => inx k && iny k) - 2 in
  let t12 := cell n (fun k => inx k && negb (iny k)) in
  let t21 := cell n (fun k => negb (inx k) && iny k) in
  let t22 := cell n (fun k => negb (inx k) && negb (iny k)) in
  let denom := (t11 + t12) * (t21 + t22) * (t11 + t21) * (t12 + t22) in
  if denom =? 0 then 0%Q
  else (inject_Z ((Z.of_nat n - 2) * (t12 * t21 - t11 * t22) ^ 2)
        / inject_Z denom)%Q.



(** ** A concrete setting to run the model in *)

(** The Euclidean distance matrix of a one-column sample: the absolute
    differences. *)
Definition euclidean_1d (x : np.ndarray) : np.ndarray :=
  map (fun r => map (fun s => Qabs (nth 0 r 0 - nth 0 s 0)%Q) x) x.

(** A kernel with rational values, [1 / (1 + d^2)] of the distance. *)
Definition rational_kernel (x : np.ndarray) : np.ndarray :=
  map (map (fun d => (1 / (1 + d * d))%Q)) (euclidean_1d x).

(** [np.arange(n)] as a one-column sample. *)
Definition arange (n : nat) : np.ndarray :=
  map (fun k => [inject_Z (Z.of_nat k)]) (seq 0 n).

(** [c * (np.ones((n, n)) - np.identity(n))] *)
Definition ones_minus_identity (n : nat) (c : Q) : np.ndarray :=
  map (fun i => map (fun j => if Nat.eqb i j then 0%Q else c) (seq 0 n))
      (seq 0 n).

(** A generator whose state is a counter and whose draw rotates the
    rows by the counter. *)
Definition rotate (k : nat) (a : np.ndarray) : np.ndarray :=
  skipn (k mod length a) a ++ firstn (k mod length a) a.

Definition counter_rng : NumpyRandom :=
  {| RNG := nat;
     permutation := fun g a => (rotate g a, ((5 * g + 3) mod 17)%nat) |}.

Definition has_nan (a : list (list (option Q))) : bool :=
  existsb (existsb (fun e => match e with None => true | Some _ => false end))
          a.

Definition strip_nan (a : list (list (option Q))) : np.ndarray :=
  map (map (fun e => match e with Some q => q | None => 0%Q end)) a.

(** Modelled from the spec: the validation of [_CheckInputs], whose
    source is not among the modelled files.  An input is rejected with
    a [ValueError] when [x] or [y] is not a numeric array, when their
    row counts differ, when the sample is too small, when a value is
    NaN, when [reps] is not a positive integer, or when the metric is
    neither callable nor [None].  The size bound is the one the tests
    of the package exercise: a sample of 3 rows is rejected. *)
Definition check_inputs (x y reps : pyobj) (compute_distance : option metric)
  : result (np.ndarray * np.ndarray) :=
  match x, y with
  | PyArray ax, PyArray ay =>
      if has_nan ax || has_nan ay then inl ValueError
      else if negb (Nat.eqb (length ax) (length ay)) then inl ValueError
      else if Nat.leb (length ax) 3 then inl ValueError
      else
        match reps with
        | PyInt r =>
            if r <? 1 then inl ValueError
            else
              match compute_distance with
              | Some (NotCallable _) => inl ValueError
              | _ => inr (strip_nan ax, strip_nan ay)
              end
        | _ => inl ValueError
        end
  | _, _ => inl ValueError
  end.

(** Modelled from the spec: [check_xy_distmat], the check that inputs
    declared to be pairwise matrices are square. *)
Definition check_distmat (x y : np.ndarray) : result unit :=
  if forallb (fun r => Nat.eqb (length r) (length x)) x
     && forallb (fun r => Nat.eqb (length r) (length y)) y
  then inr tt else inl ValueError.

(** Modelled from the spec: the U-centering of a pairwise matrix
    (section 4.4), part of the numeric kernel of [Dcorr], which is not
    among the modelled files. *)
Definition u_center (d : np.ndarray) : np.ndarray :=
  let n := length d in
  let nq := inject_Z (Z.of_nat n) in
  let rowsum i := np.fsum (np.row d i) in
  let colsum j := np.fsum (map (fun r => nth j r 0%Q) d) in
  let total := np.sum2 d in
  map (fun i => map (fun j =>
         if Nat.eqb i j then 0%Q
         else (np.item d i j - rowsum i / (nq - 2) - colsum j / (nq - 2)
               + total / ((nq - 1) * (nq - 2)))%Q)
       (seq 0 n)) (seq 0 n).

(** Modelled from the spec: the unbiased trace statistic
    [trace(Cx Cy) / (n (n - 3))] of section 4.4, without the
    normalisation; the numeric kernel of [Dcorr], which is not among
    the modelled files. *)
Definition trace_statistic (distx disty : np.ndarray) : Q :=
  let n := length distx in
  let nq := inject_Z (Z.of_nat n) in
  let cx := u_center distx in
  let cy := u_center disty in
  (np.fsum (map (fun i => np.fsum (map (fun j =>
      np.item cx i j * np.item cy j i) (seq 0 n))) (seq 0 n))
   / (nq * (nq - 3)))%Q.

(** Modelled from the spec: the k-sample transform of section 4.6.  The
    groups are stacked into [u]; row [i] of [v] holds the index of the
    group that row [i] of [u] came from. *)
Fixpoint group_labels (k : nat) (inputs : list np.ndarray) : np.ndarray :=
  match inputs with
  | [] => []
  | g :: rest =>
      map (fun _ => [inject_Z (Z.of_nat k)]) g ++ group_labels (S k) rest
  end.

(** Modelled from the spec: [k_sample_transform] of
    [ksample/_utils.py], which is not among the modelled files; the
    stacked groups and their labels. *)
Definition stack_groups (inputs : list np.ndarray)
  : result (np.ndarray * np.ndarray) :=
  inr (concat inputs, group_labels 0 inputs).

Definition collaborators : Collaborators :=
  {| euclidean := euclidean_1d;
     rbf_kernel := rational_kernel;
     _CheckInputs := check_inputs;
     check_xy_distmat := check_distmat;
     _dcorr := trace_statistic;
     k_sample_transform := stack_groups |}.

(** A freshly built [HHG()] and [Hsic()], with the default metrics. *)
Definition new_HHG : obj.attrs :=
  HHG.__init__ (Some (Callable euclidean_1d)) obj.empty.

Definition new_Hsic : obj.attrs :=
  Hsic.__init__ (Some (Callable rational_kernel)) obj.empty.

(** The world transformer and result of a run, taken apart. *)
Definition returned {S A : Type} (r : result A * S) : result A := fst r.
Definition final {S A : Type} (r : result A * S) : S := snd r.

(** The statistic and the p-value a run returned (0 if it raised). *)
Definition stat_of {S : Type} (r : result (Q * Q) * S) : Q :=
  match fst r with
  | inr (st, _) => st
  | inl _ => 0%Q
  end.

Definition pvalue_of {S : Type} (r : result (Q * Q) * S) : Q :=
  match fst r with
  | inr (_, pv) => pv
  | inl _ => 0%Q
  end.

(** Decision procedures for the shape predicates. *)
Definition squareb (n : nat) (a : np.ndarray) : bool :=
  Nat.eqb (length a) n && forallb (fun r => Nat.eqb (length r) n) a.


(** ** The permutation trials of a run *)



(** A statistic that assigns neither [self.x] nor [self.y]. *)
Definition keeps_xy `{NumpyRandom}
  (statistic : np.ndarray -> np.ndarray -> M world Q) : Prop :=
  forall a b w,
    obj.x (fst (snd (statistic a b w))) = obj.x (fst w) /\
    obj.y (fst (snd (statistic a b w))) = obj.y (fst w).



(** The inputs the validation is documented to reject. *)
Definition invalid_input (x y reps : pyobj) (compute_distance : option metric)
  : Prop :=
  (forall a, x <> PyArray a) \/ (forall a, y <> PyArray a) \/
  (exists ax ay, x = PyArray ax /\ y = PyArray ay /\
     (length ax <> length ay \/ (length ax < 3)%nat
      \/ has_nan ax = true \/ has_nan ay = true)) \/
  (forall r, reps <> PyInt r) \/ (exists r, reps = PyInt r /\ r <= 0) \/
  (exists t, compute_distance = Some (NotCallable t)).


(** Runs in the concrete setting: the base test on the statistic of
    [HHG], [HHG().test], a k-sample test on two groups, and
    [Hsic().test], each of three trials on [np.arange(5)]. *)
Definition run_base : result (Q * Q) * (obj.attrs * nat) :=
  @IndependenceTest.test counter_rng (@HHG._statistic counter_rng)
    (arange 5) (arange 5) (PyInt 3) 1 (new_HHG, 0%nat).

Definition run_HHG : result (Q * Q) * (obj.attrs * nat) :=
  @HHG.test counter_rng collaborators
    (of_array (arange 5)) (of_array (arange 5)) (PyInt 3) 1 (new_HHG, 0%nat).

Definition new_KSample : KSampleTest.attrs :=
  match @KSampleTest.__init__ collaborators cls.HHG
          (Some (Callable euclidean_1d)) KSampleTest.empty with
  | inr o => o
  | inl _ => KSampleTest.empty
  end.

Definition run_KSample : result (Q * Q) * (KSampleTest.attrs * nat) :=
  @KSampleTest.test counter_rng collaborators
    [arange 3; arange 2] (PyInt 3) 1 (new_KSample, 1%nat).

Definition run_Hsic : result (Q * Q) * (obj.attrs * nat) :=
  @Hsic.test counter_rng collaborators
    (of_array (arange 5)) (of_array (arange 5)) (PyInt 3) (-1)
    (new_Hsic, 0%nat).

(** Runs of the two base tests with a negative [reps]. *)
Definition run_negative : result (Q * Q) * (obj.attrs * nat) :=
  @IndependenceTest.test counter_rng (@HHG._statistic counter_rng)
    (arange 5) (arange 5) (PyInt (-2)) 1 (new_HHG, 0%nat).

Definition run_KSample_negative
  : result (Q * Q) * (KSampleTest.attrs * nat) :=
  @KSampleTest.test counter_rng collaborators
    [arange 3; arange 2] (PyInt (-2)) 1 (new_KSample, 1%nat).

(** Two worlds with one generator state whose objects agree on what a
    trial reads. *)
Definition same_inputs `{NumpyRandom} (w1 w2 : world) : Prop :=
  snd w1 = snd w2
  /\ obj.is_distance (fst w1) = obj.is_distance (fst w2)
  /\ obj.compute_distance (fst w1) = obj.compute_distance (fst w2)
  /\ obj.x (fst w1) = obj.x (fst w2)
  /\ obj.y (fst w1) = obj.y (fst w2).

(** * Properties *)

(** ** Sums over lists *)

Section Sums.

Lemma sum_app (u v : list Z) : np.sum (u ++ v) = np.sum u + np.sum v.
Proof.
  induction u as [|e u IH]; simpl; [reflexivity|].
  unfold np.sum in *. simpl. rewrite IH. ring.
Qed.



Lemma fsum_app (u v : list Q) :
  (np.fsum (u ++ v) == np.fsum u + np.fsum v)%Q.
Proof.
  induction u as [|e u IH]; unfold np.fsum in *; simpl.
  - ring.
  - rewrite IH. ring.
Qed.



Lemma fsum_map_ext {A : Type} (f g : A -> Q) (l : list A) :
  (forall k, In k l -> f k == g k)%Q ->
  (np.fsum (map f l) == np.fsum (map g l))%Q.
Proof.
  induction l as [|e l IH]; intros Hfg; simpl; [reflexivity|].
  unfold np.fsum in *. simpl.
  rewrite (Hfg e (or_introl eq_refl)), IH; [reflexivity|].
  intros k Hk. apply Hfg. right. exact Hk.
Qed.

(** The sum of a 2-D array is the sum of the sums of its rows. *)
Lemma sum2_rows (a : np.ndarray) :
  (np.sum2 a == np.fsum (map np.fsum a))%Q.
Proof.
  unfold np.sum2. induction a as [|r a IH]; simpl; [reflexivity|].
  rewrite fsum_app, IH. unfold np.fsum at 4. simpl. reflexivity.
Qed.

Lemma sum2_table {A B : Type} (f : A -> B -> Q) (l1 : list A) (l2 : list B) :
  (np.sum2 (map (fun i => map (f i) l2) l1)
   == np.fsum (map (fun i => np.fsum (map (f i) l2)) l1))%Q.
Proof. rewrite sum2_rows, map_map. reflexivity. Qed.



End Sums.

(** ** Rows and entries of square arrays *)

Section Arrays.

Lemma mul_comm (u v : list Z) : np.mul u v = np.mul v u.
Proof.
  unfold np.mul. revert v.
  induction u as [|e u IH]; intros [|e' v]; simpl; try reflexivity.
  rewrite IH. f_equal. ring.
Qed.

Lemma mul_map {A : Type} (f g : A -> Z) (l : list A) :
  np.mul (map f l) (map g l) = map (fun k => f k * g k) l.
Proof.
  unfold np.mul. induction l as [|e l IH]; simpl; [reflexivity|].
  rewrite IH. reflexivity.
Qed.

Lemma one_minus_map {A : Type} (f : A -> Z) (l : list A) :
  np.one_minus (map f l) = map (fun k => 1 - f k) l.
Proof. unfold np.one_minus. apply map_map. Qed.

Lemma le_scalar_map {A : Type} (r : A -> Q) (v : Q) (l : list A) :
  np.le_scalar (map r l) v
  = map (fun k => if Qle_bool (r k) v then 1 else 0) l.
Proof. unfold np.le_scalar. apply map_map. Qed.

Lemma list_as_map {A : Type} (d : A) (l : list A) :
  l = map (fun k => nth k l d) (seq 0 (length l)).
Proof.
  apply (nth_ext _ _ d d).
  - rewrite length_map, length_seq. reflexivity.
  - intros k Hk.
    rewrite (nth_indep (map (fun k => nth k l d) (seq 0 (length l)))
               d (nth 0 l d))
      by (rewrite length_map, length_seq; exact Hk).
    rewrite (map_nth (fun k => nth k l d)), seq_nth by exact Hk.
    reflexivity.
Qed.

Lemma row_length (n : nat) (a : np.ndarray) (i : nat) :
  np.square n a -> (i < n)%nat -> length (np.row a i) = n.
Proof.
  intros [Hlen Hrows] Hi. unfold np.row.
  rewrite Forall_forall in Hrows. apply Hrows, nth_In. lia.
Qed.

Lemma row_square (n : nat) (a : np.ndarray) (i : nat) :
  np.square n a -> (i < n)%nat ->
  np.row a i = map (np.item a i) (seq 0 n).
Proof.
  intros Hsq Hi. unfold np.item.
  rewrite (list_as_map 0%Q (np.row a i)) at 1.
  rewrite (row_length n a i Hsq Hi). reflexivity.
Qed.










End Arrays.

(** ** The HHG statistic *)

Section HHGStatistic.

(** On square arrays the loop body is its reading through index
    functions over all the points. *)
Lemma entry_square (n : nat) (distx disty : np.ndarray) (i j : nat) :
  np.square n distx -> np.square n disty -> (i < n)%nat ->
  _hhg_entry n distx disty i j
  = entry_on (seq 0 n) n (np.item distx) (np.item disty) i j.
Proof.
  intros Hx Hy Hi. unfold _hhg_entry, entry_on, indicator.
  rewrite (row_square n distx i Hx Hi), (row_square n disty i Hy Hi).
  rewrite !le_scalar_map, !one_minus_map, !mul_map. reflexivity.
Qed.


(** The statistic as a double sum of loop bodies. *)
Lemma hhg_double_sum (n : nat) (distx disty : np.ndarray) :
  np.square n distx -> np.square n disty ->
  (_hhg distx disty
   == np.fsum (map (fun i => np.fsum (map
        (entry_on (seq 0 n) n (np.item distx) (np.item disty) i)
        (seq 0 n))) (seq 0 n)))%Q.
Proof.
  intros Hx Hy. unfold _hhg.
  replace (np.shape0 distx) with n by (symmetry; apply Hx).
  rewrite sum2_table. apply fsum_map_ext. intros i Hi.
  apply in_seq in Hi.
  apply fsum_map_ext. intros j _.
  rewrite (entry_square n distx disty i j Hx Hy) by lia. reflexivity.
Qed.

(** The loop body does not change when the two matrices are
    exchanged. *)
Lemma entry_swap (n : nat) (distx disty : np.ndarray) (i j : nat) :
  _hhg_entry n disty distx i j = _hhg_entry n distx disty i j.
Proof.
  unfold _hhg_entry. destruct (Nat.eqb i j); [reflexivity|].
  set (a := np.le_scalar (np.row distx i) (np.item distx i j)).
  set (b := np.le_scalar (np.row disty i) (np.item disty i j)).
  rewrite (mul_comm b a), (mul_comm b (np.one_minus a)),
    (mul_comm (np.one_minus b) a),
    (mul_comm (np.one_minus b) (np.one_minus a)).
  set (t11 := np.sum (np.mul a b) - 2).
  set (t12 := np.sum (np.mul a (np.one_minus b))).
  set (t21 := np.sum (np.mul (np.one_minus a) b)).
  set (t22 := np.sum (np.mul (np.one_minus a) (np.one_minus b))).
  replace ((t11 + t21) * (t12 + t22) * (t11 + t12) * (t21 + t22))
    with ((t11 + t12) * (t21 + t22) * (t11 + t21) * (t12 + t22)) by ring.
  replace ((t21 * t12 - t11 * t22) ^ 2)
    with ((t12 * t21 - t11 * t22) ^ 2) by ring.
  reflexivity.
Qed.

(** C7. The HHG statistic of two n-by-n matrices does not depend on
    the order of its arguments: [_hhg(distx, disty)] equals
    [_hhg(disty, distx)].  Symmetric distance matrices are a special
    case; only the common shape is used. *)
Theorem hhg_symmetric (n : nat) (distx disty : np.ndarray) :
  np.square n distx -> np.square n disty ->
  (_hhg distx disty == _hhg disty distx)%Q.
Proof.
  intros [Hx _] [Hy _]. unfold _hhg, np.shape0. rewrite Hx, Hy.
  rewrite !sum2_table. apply fsum_map_ext. intros i _.
  apply fsum_map_ext. intros j _.
  rewrite entry_swap. reflexivity.
Qed.





End HHGStatistic.

(** ** Stateful computations *)

Section Computations.
Context {S : Type}.

Lemma bind_returns {A B : Type} (m : M S A) (k : A -> M S B) (s s' : S)
  (b : B) :
  bind m k s = (inr b, s') ->
  exists a s1, m s = (inr a, s1) /\ k a s1 = (inr b, s').
Proof.
  unfold bind. destruct (m s) as [[e|a] s1]; intros Hb.
  - discriminate.
  - exists a, s1. split; [reflexivity|exact Hb].
Qed.

Lemma bind_raises {A B : Type} (m : M S A) (k : A -> M S B) (s s' : S)
  (e : exn) :
  m s = (inl e, s') -> bind m k s = (inl e, s').
Proof. unfold bind. intros ->. reflexivity. Qed.

Lemma mapM_length {A B : Type} (f : A -> M S B) (l : list A) :
  forall s r s', mapM f l s = (inr r, s') -> length r = length l.
Proof.
  induction l as [|a l IH]; intros s r s' Hm; simpl in Hm.
  - inversion Hm. reflexivity.
  - apply bind_returns in Hm. destruct Hm as [b [s1 [_ Hm]]].
    apply bind_returns in Hm. destruct Hm as [bs [s2 [Hbs Hm]]].
    inversion Hm. simpl. f_equal. apply (IH _ _ _ Hbs).
Qed.



End Computations.

(** ** The p-value *)

Section PValue.

Lemma range_length (n : Z) : length (range n) = Z.to_nat n.
Proof. unfold range. rewrite length_map, length_seq. reflexivity. Qed.

Lemma count_ge_bounds (null_dist : list Q) (stat : Q) :
  0 <= count_ge null_dist stat <= Z.of_nat (length null_dist).
Proof.
  unfold count_ge. split; [lia|].
  apply inj_le. induction null_dist as [|e l IH]; simpl; [lia|].
  destruct (Qle_bool stat e); simpl; lia.
Qed.

(** The count is a matter of which values are present, not of their
    order. *)
Lemma count_ge_perm (l l' : list Q) (stat : Q) :
  Permutation l l' -> count_ge l stat = count_ge l' stat.
Proof.
  intros Hp. unfold count_ge. f_equal. apply Permutation_length.
  induction Hp as [|e u v _ IH|e e' u|u v w _ IH1 _ IH2]; simpl.
  - constructor.
  - destruct (Qle_bool stat e); [constructor|]; exact IH.
  - destruct (Qle_bool stat e), (Qle_bool stat e');
      try apply perm_swap; apply Permutation_refl.
  - eapply perm_trans; eassumption.
Qed.

Lemma fraction (c : Z) (p : positive) :
  (inject_Z c / inject_Z (Zpos p) == c # p)%Q.
Proof. symmetry. apply Qmake_Qdiv. Qed.


End PValue.

(** ** The permutation test of the base classes *)

Section Runner.
Context `{NumpyRandom}.

Section Independence.
Variable _statistic : np.ndarray -> np.ndarray -> M world Q.

(** What a returning run of [IndependenceTest.test] has done. *)
Lemma test_returns_inv (x y : np.ndarray) (reps : pyobj) (workers : Z)
  (w w' : world) (st pv : Q) :
  IndependenceTest.test _statistic x y reps workers w
  = (inr (st, pv), w') ->
  exists n w0 nd w1,
    reps = PyInt n /\
    _statistic x y (obj.set_y y (obj.set_x x (fst w)), snd w)
    = (inr st, w0) /\
    mapM (IndependenceTest._perm_stat _statistic) (range n) w0
    = (inr nd, w1) /\
    pv = p_value nd st n /\
    w' = (obj.set_pvalue (Some pv) (obj.set_null_dist nd (fst w1)),
          snd w1).
Proof.
  unfold IndependenceTest.test. intros Ht.
  apply bind_returns in Ht. destruct Ht as [[] [s1 [H1 Ht]]].
  unfold self_set in H1. inversion H1; subst s1. clear H1.
  apply bind_returns in Ht. destruct Ht as [[] [s2 [H2 Ht]]].
  inversion H2; subst s2. clear H2. simpl fst in Ht. simpl snd in Ht.
  apply bind_returns in Ht. destruct Ht as [st' [w0 [Hst Ht]]].
  apply bind_returns in Ht. destruct Ht as [n [s3 [Hn Ht]]].
  destruct reps as [|z|?|?|?]; try discriminate Hn.
  inversion Hn; subst z s3. clear Hn.
  apply bind_returns in Ht. destruct Ht as [nd [w1 [Hnd Ht]]].
  apply bind_returns in Ht. destruct Ht as [[] [s4 [H4 Ht]]].
  inversion H4; subst s4. clear H4.
  apply bind_returns in Ht. destruct Ht as [[] [s5 [H5 Ht]]].
  inversion H5; subst s5. clear H5.
  inversion Ht; subst. simpl.
  exists n, w0, nd, w1. repeat split; assumption.
Qed.




End Independence.

Section KSample.
Context `{Collaborators}.

(** What a returning run of [KSampleTest.test] has done. *)
Lemma ks_test_returns_inv (inputs : list np.ndarray) (reps : pyobj)
  (workers : Z) (w w' : KSampleTest.ks_world) (st pv : Q) :
  KSampleTest.test inputs reps workers w = (inr (st, pv), w') ->
  exists u v n w0 nd w1,
    k_sample_transform inputs = inr (u, v) /\
    reps = PyInt n /\
    KSampleTest.indep_statistic u v
      (KSampleTest.set_v v (KSampleTest.set_u u (fst w)), snd w)
    = (inr st, w0) /\
    mapM KSampleTest._perm_stat (range n) w0 = (inr nd, w1) /\
    pv = p_value nd st n /\
    w' = (KSampleTest.set_pvalue (Some pv)
            (KSampleTest.set_null_dist nd (fst w1)), snd w1).
Proof.
  unfold KSampleTest.test. intros Ht.
  apply bind_returns in Ht. destruct Ht as [[u v] [s0 [Hlift Ht]]].
  unfold lift_result in Hlift. inversion Hlift as [[Hk Hs]]. subst s0.
  clear Hlift. simpl fst in Ht. simpl snd in Ht.
  apply bind_returns in Ht. destruct Ht as [[] [s1 [H1 Ht]]].
  unfold KSampleTest.ks_set in H1. inversion H1; subst s1. clear H1.
  apply bind_returns in Ht. destruct Ht as [[] [s2 [H2 Ht]]].
  inversion H2; subst s2. clear H2. simpl fst in Ht. simpl snd in Ht.
  apply bind_returns in Ht. destruct Ht as [st' [w0 [Hst Ht]]].
  apply bind_returns in Ht. destruct Ht as [n [s3 [Hn Ht]]].
  destruct reps as [|z|?|?|?]; try discriminate Hn.
  inversion Hn; subst z s3. clear Hn.
  apply bind_returns in Ht. destruct Ht as [nd [w1 [Hnd Ht]]].
  apply bind_returns in Ht. destruct Ht as [[] [s4 [H4 Ht]]].
  inversion H4; subst s4. clear H4.
  apply bind_returns in Ht. destruct Ht as [[] [s5 [H5 Ht]]].
  inversion H5; subst s5. clear H5.
  inversion Ht; subst. simpl.
  exists u, v, n, w0, nd, w1. repeat split; assumption.
Qed.

(** The statistic runs on the stored test object and assigns
    neither [self.u] nor [self.v]. *)
Lemma indep_statistic_keeps_uv (a b : np.ndarray)
  (w : KSampleTest.ks_world) :
  KSampleTest.u (fst (snd (KSampleTest.indep_statistic a b w)))
  = KSampleTest.u (fst w)
  /\ KSampleTest.v (fst (snd (KSampleTest.indep_statistic a b w)))
     = KSampleTest.v (fst w).
Proof.
  unfold KSampleTest.indep_statistic.
  destruct (KSampleTest.indep_test (fst w)) as [[c o]|];
    [|split; reflexivity].
  destruct (statistic_of c a b (o, snd w)) as [r [o' g]].
  split; reflexivity.
Qed.



End KSample.

End Runner.

(** ** The test classes *)

Section Classes.
Context `{NumpyRandom} `{Collaborators}.


Lemma Dcorr_statistic_keeps_xy : keeps_xy Dcorr._statistic.
Proof.
  intros a b [o g].
  unfold Dcorr._statistic, bind, self_get, self_set, call, ret, raise.
  simpl. destruct (obj.is_distance o); simpl; [split; reflexivity|].
  destruct (obj.compute_distance o) as [[f|t]|]; simpl; split; reflexivity.
Qed.





Lemma Dcorr_test_raises (x y reps : pyobj) (workers : Z) (self : obj.attrs)
  (g : RNG) (e : exn) :
  _CheckInputs x y reps (obj.compute_distance self) = inl e
  \/ (exists ax ay,
        _CheckInputs x y reps (obj.compute_distance self) = inr (ax, ay)
        /\ obj.is_distance self = true
        /\ check_xy_distmat ax ay = inl e) ->
  Dcorr.test x y reps workers (self, g) = (inl e, (self, g)).
Proof.
  unfold Dcorr.test, bind, self_get, lift_result. simpl.
  intros [He|[ax [ay [Hv [Hd He]]]]].
  - rewrite He. reflexivity.
  - rewrite Hv, Hd. simpl. rewrite He. reflexivity.
Qed.



(** The result and the generator of [Hsic.test] are those of the
    test of a [Dcorr] built on the kernel. *)
Lemma Hsic_test_result (x y reps : pyobj) (workers : Z) (self : obj.attrs)
  (g : RNG) :
  let dcorr := Dcorr.__init__ (obj.compute_kernel self) obj.empty in
  returned (Hsic.test x y reps workers (self, g))
  = returned (Dcorr.test x y reps workers (dcorr, g))
  /\ snd (final (Hsic.test x y reps workers (self, g)))
     = snd (final (Dcorr.test x y reps workers (dcorr, g))).
Proof.
  intros dcorr.
  unfold Hsic.test, Hsic.on_local, bind, self_get, self_set, ret,
    returned, final.
  simpl. fold dcorr.
  destruct (Dcorr.test x y reps workers (dcorr, g))
    as [[e|[st pv]] [o' g']]; simpl; split; reflexivity.
Qed.

(** [Hsic.test] assigns [stat] and [pvalue] and no other attribute
    of its object; the null distribution stays on the local [Dcorr]. *)
Lemma Hsic_test_attrs (x y reps : pyobj) (workers : Z) (self : obj.attrs)
  (g : RNG) :
  let self' := fst (final (Hsic.test x y reps workers (self, g))) in
  obj.null_dist self' = obj.null_dist self
  /\ (forall st pv,
        returned (Hsic.test x y reps workers (self, g)) = inr (st, pv) ->
        obj.stat self' = Some st /\ obj.pvalue self' = Some pv).
Proof.
  unfold Hsic.test, Hsic.on_local, bind, self_get, self_set, ret,
    returned, final.
  simpl.
  destruct (Dcorr.test x y reps workers
              (Dcorr.__init__ (obj.compute_kernel self) obj.empty, g))
    as [[e|[st pv]] [o' g']]; simpl.
  - split; [reflexivity|]. intros st pv Hr. discriminate Hr.
  - split; [reflexivity|]. intros st' pv' Hr. inversion Hr; subst.
    split; reflexivity.
Qed.

(** The test of the base class does store the null distribution. *)
Lemma test_stores_null_dist
  (_statistic : np.ndarray -> np.ndarray -> M world Q)
  (x y : np.ndarray) (reps : pyobj) (workers : Z) (w w' : world)
  (st pv : Q) :
  IndependenceTest.test _statistic x y reps workers w
  = (inr (st, pv), w') ->
  exists n nd,
    reps = PyInt n /\ obj.null_dist (fst w') = Some nd /\
    length nd = Z.to_nat n /\ pv = p_value nd st n /\
    obj.pvalue (fst w') = Some pv.
Proof.
  intros Ht. apply test_returns_inv in Ht.
  destruct Ht as [n [w0 [nd [w1 [Hn [Hst [Hnd [Hpv Hw']]]]]]]].
  exists n, nd. subst w'. simpl.
  repeat split; try assumption; try reflexivity.
  rewrite (mapM_length _ _ _ _ _ Hnd). apply range_length.
Qed.

Lemma ks_test_stores_null_dist (inputs : list np.ndarray) (reps : pyobj)
  (workers : Z) (w w' : KSampleTest.ks_world) (st pv : Q) :
  KSampleTest.test inputs reps workers w = (inr (st, pv), w') ->
  exists n nd,
    reps = PyInt n /\ KSampleTest.null_dist (fst w') = Some nd /\
    length nd = Z.to_nat n /\ pv = p_value nd st n /\
    KSampleTest.pvalue (fst w') = Some pv.
Proof.
  intros Ht. apply ks_test_returns_inv in Ht.
  destruct Ht as [u [v [n [w0 [nd [w1 [Hk [Hn [Hst [Hnd [Hpv Hw']]]]]]]]]]].
  exists n, nd. subst w'. simpl.
  repeat split; try assumption; try reflexivity.
  rewrite (mapM_length _ _ _ _ _ Hnd). apply range_length.
Qed.

End Classes.

(** ** The concrete setting *)

Section Concrete.



Lemma squareb_sound (n : nat) (a : np.ndarray) :
  squareb n a = true -> np.square n a.
Proof.
  unfold squareb, np.square. intros Hb.
  apply andb_prop in Hb. destruct Hb as [Hl Hr]. split.
  - apply Nat.eqb_eq, Hl.
  - apply Forall_forall. intros r Hin.
    apply Nat.eqb_eq. revert r Hin. apply forallb_forall. exact Hr.
Qed.


(** The modelled validation rejects every input the document lists
    as invalid. *)
Lemma check_inputs_rejects (x y reps : pyobj)
  (compute_distance : option metric) :
  invalid_input x y reps compute_distance ->
  check_inputs x y reps compute_distance = inl ValueError.
Proof.
  unfold check_inputs. intros Hinv.
  destruct x as [| | | |ax]; try reflexivity.
  destruct y as [| | | |ay]; try reflexivity.
  destruct (has_nan ax) eqn:Hnx; [reflexivity|].
  destruct (has_nan ay) eqn:Hny; [reflexivity|]. simpl.
  destruct (Nat.eqb_spec (length ax) (length ay)) as [Hl|Hl];
    [|reflexivity]. simpl.
  destruct (Nat.leb_spec (length ax) 3) as [Hs|Hs]; [reflexivity|].
  destruct reps as [|r| | |]; try reflexivity.
  destruct (Z.ltb_spec r 1) as [Hr|Hr]; [reflexivity|].
  destruct compute_distance as [[f|t]|]; try reflexivity; exfalso;
    destruct Hinv as [Hx|[Hy|[[bx [bY [Ex [Ey Hc]]]]
                     |[Hnr|[[r' [Er Hr']]|[t' Et]]]]]];
    try (apply (Hx ax); reflexivity);
    try (apply (Hy ay); reflexivity);
    try (apply (Hnr r); reflexivity);
    try (inversion Er; subst; lia);
    try discriminate Et;
    inversion Ex; inversion Ey; subst;
    destruct Hc as [Hc|[Hc|[Hc|Hc]]]; try congruence; lia.
Qed.

End Concrete.

(** * The claims about the permutation test *)


(** C6. The null distribution that a returning run of [test] with
    [reps >= 1] stores has exactly [reps] entries, for an independence
    test and for a k-sample test. *)
Theorem null_dist_has_reps_entries `{NumpyRandom} `{Collaborators}
  (_statistic : np.ndarray -> np.ndarray -> M world Q) (reps : Z) :
  1 <= reps ->
  (forall x y workers w st pv w',
      IndependenceTest.test _statistic x y (PyInt reps) workers w
      = (inr (st, pv), w') ->
      exists nd, obj.null_dist (fst w') = Some nd
                 /\ Z.of_nat (length nd) = reps)
  /\ (forall inputs workers w st pv w',
         KSampleTest.test inputs (PyInt reps) workers w
         = (inr (st, pv), w') ->
         exists nd, KSampleTest.null_dist (fst w') = Some nd
                    /\ Z.of_nat (length nd) = reps).
Proof.
  intros Hreps. split.
  - intros x y workers w st pv w' Ht.
    apply test_stores_null_dist in Ht.
    destruct Ht as [n [nd [Hn [Hnd [Hlen _]]]]].
    inversion Hn; subst n. exists nd. split; [exact Hnd|lia].
  - intros inputs workers w st pv w' Ht.
    apply ks_test_stores_null_dist in Ht.
    destruct Ht as [n [nd [Hn [Hnd [Hlen _]]]]].
    inversion Hn; subst n. exists nd. split; [exact Hnd|lia].
Qed.


(** C4. For every input, [Hsic.test] returns exactly what the test of
    the trace statistic ([Dcorr]) built with the kernel as its metric
    returns on the same arguments, an exception included, and leaves
    the generator as that test leaves it: statistic, permutation trials
    and p-value are those of [Dcorr.test]. *)
Theorem Hsic_test_delegates `{NumpyRandom} `{Collaborators}
  (x y reps : pyobj) (workers : Z) (self : obj.attrs) (g : RNG) :
  let dcorr := Dcorr.__init__ (obj.compute_kernel self) obj.empty in
  returned (Hsic.test x y reps workers (self, g))
  = returned (Dcorr.test x y reps workers (dcorr, g))
  /\ snd (final (Hsic.test x y reps workers (self, g)))
     = snd (final (Dcorr.test x y reps workers (dcorr, g))).
Proof. apply Hsic_test_result. Qed.

(** C5. [Hsic().test(x, y, reps=3)] on [x = y = np.arange(5)] returns
    the pair and stores it as [stat] and [pvalue], but the object holds
    no [null_dist] afterwards; [HHG().test] on the same input leaves
    the null distribution of the 3 trials on its object. *)
Theorem Hsic_test_keeps_no_null_dist :
  returned run_Hsic = inr (stat_of run_Hsic, pvalue_of run_Hsic)
  /\ obj.stat (fst (final run_Hsic)) = Some (stat_of run_Hsic)
  /\ obj.pvalue (fst (final run_Hsic)) = Some (pvalue_of run_Hsic)
  /\ obj.null_dist (fst (final run_Hsic)) = None
  /\ option_map (@length Q) (obj.null_dist (fst (final run_HHG)))
     = Some 3%nat.
Proof.
  split; [|split; [|split; [|split]]]; vm_compute; reflexivity.
Qed.


(** C10. Constructing a [KSampleTest] with [indep_test = Hsic] raises a
    [TypeError] whatever the metric: [Hsic] is in [dist_tests], so it
    is instantiated with the keyword [compute_distance], and
    [Hsic.__init__] has the one parameter [compute_kernel]. *)
Theorem KSampleTest_of_Hsic_raises `{Collaborators}
  (compute_distance : option metric) (self : KSampleTest.attrs) :
  KSampleTest.__init__ cls.Hsic compute_distance self = inl TypeError.
Proof. reflexivity. Qed.

(** * The claims at concrete inputs *)


Lemma hhg_symmetric_witness :
  np.square 4 (euclidean_1d (arange 4))
  /\ np.square 4 (ones_minus_identity 4 2)
  /\ (_hhg (euclidean_1d (arange 4)) (ones_minus_identity 4 2)
      == _hhg (ones_minus_identity 4 2) (euclidean_1d (arange 4)))%Q.
Proof.
  assert (Hx : np.square 4 (euclidean_1d (arange 4)))
    by (apply squareb_sound; vm_compute; reflexivity).
  assert (Hy : np.square 4 (ones_minus_identity 4 2))
    by (apply squareb_sound; vm_compute; reflexivity).
  split; [exact Hx|]. split; [exact Hy|].
  exact (hhg_symmetric 4 _ _ Hx Hy).
Defined.



Lemma null_dist_has_reps_entries_witness :
  1 <= 3
  /\ (exists nd,
         obj.null_dist (fst (final run_base)) = Some nd
         /\ Z.of_nat (length nd) = 3)
  /\ (exists nd,
         KSampleTest.null_dist (fst (final run_KSample)) = Some nd
         /\ Z.of_nat (length nd) = 3).
Proof.
  assert (Hreps : 1 <= 3) by lia.
  assert (Hb : @IndependenceTest.test counter_rng
                 (@HHG._statistic counter_rng)
                 (arange 5) (arange 5) (PyInt 3) 1 (new_HHG, 0%nat)
               = (inr (stat_of run_base, pvalue_of run_base), final run_base))
    by (vm_compute; reflexivity).
  assert (Hk : @KSampleTest.test counter_rng collaborators
                 [arange 3; arange 2] (PyInt 3) 1 (new_KSample, 1%nat)
               = (inr (stat_of run_KSample, pvalue_of run_KSample),
                  final run_KSample))
    by (vm_compute; reflexivity).
  split; [exact Hreps|].
  destruct (@null_dist_has_reps_entries counter_rng collaborators
              (@HHG._statistic counter_rng) 3 Hreps) as [Hi Hks].
  split.
  - exact (Hi (arange 5) (arange 5) 1 (new_HHG, 0%nat)
             (stat_of run_base) (pvalue_of run_base) (final run_base) Hb).
  - exact (Hks [arange 3; arange 2] 1 (new_KSample, 1%nat)
             (stat_of run_KSample) (pvalue_of run_KSample)
             (final run_KSample) Hk).
Defined.



(** * The documented scenarios and the guard of the statistic *)

(** [x = y = np.arange(7)]: the statistic is 160. *)
Example hhg_arange7 :
  (_hhg (euclidean_1d (arange 7)) (euclidean_1d (arange 7)) == 160)%Q.
Proof. vm_compute. reflexivity. Qed.

(** [x = np.ones((10, 10)) - np.identity(10)], [y = 2 * x]: the
    statistic is 0, every denominator being 0. *)
Example hhg_constant10 :
  (_hhg (ones_minus_identity 10 1) (ones_minus_identity 10 2) == 0)%Q.
Proof. vm_compute. reflexivity. Qed.

(** Outside distance matrices a cell count can be negative and the
    denominator with it; the code then leaves the entry at 0.  Here the
    diagonal of both matrices is larger than the entries beside it, as
    in a similarity matrix. *)
Example hhg_guard_on_similarity :
  let kx := [[5; 1; 2; 3]; [1; 5; 2; 3]; [2; 2; 5; 3]; [3; 3; 3; 5]]%Q in
  let ky := [[5; 3; 2; 1]; [3; 5; 2; 1]; [2; 2; 5; 1]; [1; 1; 1; 5]]%Q in
  (_hhg_entry 4 kx ky 0 1 == 0)%Q
  /\ (S_doc 4 kx ky 0 1 == - (2 # 3))%Q.
Proof. split; vm_compute; reflexivity. Qed.

(** * Further properties of the HHG statistic *)

Section HHGRange.



Lemma fsum_map_const {A : Type} (c : Q) (l : list A) :
  (np.fsum (map (fun _ => c) l) == inject_Z (Z.of_nat (length l)) * c)%Q.
Proof.
  induction l as [|e l IH]; unfold np.fsum in *.
  - simpl. ring.
  - cbn [map fold_right length]. rewrite IH, Nat2Z.inj_succ.
    unfold Z.succ. rewrite inject_Z_plus. ring.
Qed.

Lemma fsum_map_zero {A : Type} (f : A -> Q) (l : list A) :
  (forall k, In k l -> f k == 0)%Q -> (np.fsum (map f l) == 0)%Q.
Proof.
  intros Hf. rewrite (fsum_map_ext f (fun _ => 0%Q) l Hf).
  rewrite fsum_map_const. ring.
Qed.

Lemma sum_map_zero {A : Type} (f : A -> Z) (l : list A) :
  (forall k, In k l -> f k = 0) -> np.sum (map f l) = 0.
Proof.
  induction l as [|e l IH]; intros Hf; unfold np.sum in *; simpl.
  - reflexivity.
  - rewrite (Hf e (or_introl eq_refl)), IH; [reflexivity|].
    intros k Hk. apply Hf. right. exact Hk.
Qed.





(** X2. With fewer than three points the HHG statistic is 0: the
    factor [n - 2] is 0 for two points and there is no pair of distinct
    points below that. *)
Theorem hhg_small_sample (distx disty : np.ndarray) :
  (np.shape0 distx <= 2)%nat -> (_hhg distx disty == 0)%Q.
Proof.
  intros Hn. unfold _hhg. rewrite sum2_table.
  apply fsum_map_zero. intros i Hi. apply in_seq in Hi.
  apply fsum_map_zero. intros j Hj. apply in_seq in Hj.
  unfold _hhg_entry.
  destruct (Nat.eqb_spec i j) as [Heq|Hne]; [reflexivity|].
  assert (Hn2 : Z.of_nat (np.shape0 distx) - 2 = 0) by lia.
  rewrite Hn2.
  match goal with
  | |- context [0 <? ?d] => destruct (0 <? d)
  end; [|reflexivity].
  rewrite Z.mul_0_l. unfold Qdiv. rewrite Qmult_0_l. reflexivity.
Qed.

End HHGRange.

Section HHGBound.






End HHGBound.

Section HHGRanks.

Lemma map_row (f : Q -> Q) (d : np.ndarray) (i : nat) :
  np.row (map (map f) d) i = map f (np.row d i).
Proof. unfold np.row. exact (map_nth (map f) d [] i). Qed.

Lemma map_item (f : Q -> Q) (n : nat) (d : np.ndarray) (i j : nat) :
  np.square n d -> (i < n)%nat -> (j < n)%nat ->
  np.item (map (map f) d) i j = f (np.item d i j).
Proof.
  intros Hsq Hi Hj. unfold np.item. rewrite map_row.
  rewrite (nth_indep (map f (np.row d i)) 0%Q (f 0%Q))
    by (rewrite length_map, (row_length n d i Hsq Hi); exact Hj).
  apply map_nth.
Qed.

Lemma le_scalar_map_order (f : Q -> Q) (r : list Q) (v : Q) :
  (forall a b, Qle_bool (f a) (f b) = Qle_bool a b) ->
  np.le_scalar (map f r) (f v) = np.le_scalar r v.
Proof.
  intros Hf. unfold np.le_scalar. rewrite map_map.
  apply map_ext. intros d. rewrite Hf. reflexivity.
Qed.

(** X4. The HHG statistic depends on the distances through their order
    only: replacing every entry of [distx] by its image under a map
    that keeps the order of any two values, and those of [disty] under
    another such map, leaves the statistic as it is. *)
Theorem hhg_rank_invariant (n : nat) (f g : Q -> Q)
  (distx disty : np.ndarray) :
  np.square n distx -> np.square n disty ->
  (forall a b, Qle_bool (f a) (f b) = Qle_bool a b) ->
  (forall a b, Qle_bool (g a) (g b) = Qle_bool a b) ->
  _hhg (map (map f) distx) (map (map g) disty) = _hhg distx disty.
Proof.
  intros Hx Hy Hf Hg. unfold _hhg, np.shape0. rewrite length_map.
  replace (length distx) with n by (symmetry; apply Hx).
  f_equal. apply map_ext_in. intros i Hi. apply in_seq in Hi.
  apply map_ext_in. intros j Hj. apply in_seq in Hj.
  unfold _hhg_entry. rewrite !map_row.
  rewrite (map_item f n distx i j Hx), (map_item g n disty i j Hy) by lia.
  rewrite (le_scalar_map_order f _ _ Hf), (le_scalar_map_order g _ _ Hg).
  reflexivity.
Qed.

(** Scaling by a positive factor keeps the order. *)
Lemma scale_keeps_order (c : Q) :
  (0 < c)%Q -> forall a b, Qle_bool (c * a) (c * b) = Qle_bool a b.
Proof.
  intros Hc a b.
  destruct (Qle_bool a b) eqn:Hab.
  - apply Qle_bool_iff. apply Qmult_le_l; [exact Hc|].
    apply Qle_bool_iff. exact Hab.
  - destruct (Qle_bool (c * a) (c * b)) eqn:Hcab; [|reflexivity].
    apply Qle_bool_iff in Hcab. apply Qmult_le_l in Hcab; [|exact Hc].
    apply Qle_bool_iff in Hcab. congruence.
Qed.

(** X5. When no entry of a row of [distx] exceeds an entry of that row
    off the diagonal, as for points that are all at one distance from
    each other, the HHG statistic is 0 whatever [disty] is: every
    denominator is 0. *)
Theorem hhg_zero_without_ranks (n : nat) (distx disty : np.ndarray) :
  np.square n distx -> np.square n disty ->
  (forall i j k, (i < n)%nat -> (j < n)%nat -> (k < n)%nat -> i <> j ->
                 np.item distx i k <= np.item distx i j)%Q ->
  (_hhg distx disty == 0)%Q.
Proof.
  intros Hx Hy Hflat.
  rewrite (hhg_double_sum n distx disty Hx Hy).
  apply fsum_map_zero. intros i Hi. apply in_seq in Hi.
  apply fsum_map_zero. intros j Hj. apply in_seq in Hj.
  unfold entry_on.
  destruct (Nat.eqb_spec i j) as [Heq|Hne]; [reflexivity|].
  assert (Ha : forall k, In k (seq 0 n) ->
             indicator (np.item distx i) (np.item distx i j) k = 1).
  { intros k Hk. apply in_seq in Hk. unfold indicator.
    rewrite (proj2 (Qle_bool_iff _ _)); [reflexivity|].
    apply Hflat; lia. }
  rewrite (sum_map_zero (fun k =>
             (1 - indicator (np.item distx i) (np.item distx i j) k)
             * indicator (np.item disty i) (np.item disty i j) k))
    by (intros k Hk; rewrite (Ha k Hk); reflexivity).
  rewrite (sum_map_zero (fun k =>
             (1 - indicator (np.item distx i) (np.item distx i j) k)
             * (1 - indicator (np.item disty i) (np.item disty i j) k)))
    by (intros k Hk; rewrite (Ha k Hk); reflexivity).
  match goal with
  | |- context [0 <? ?d] => replace d with 0 by ring
  end.
  reflexivity.
Qed.

End HHGRanks.

(** * Further properties of the p-value *)

Section PValueOrder.

(** X6. The p-value depends on which values the null distribution
    holds, not on their order: the results of the trials may arrive in
    any order. *)
Theorem p_value_order_free (nd nd' : list Q) (stat : Q) (reps : Z) :
  Permutation nd nd' -> p_value nd stat reps = p_value nd' stat reps.
Proof.
  intros Hp. unfold p_value. rewrite (count_ge_perm nd nd' stat Hp).
  reflexivity.
Qed.

Lemma count_ge_antitone (nd : list Q) (st st' : Q) :
  (st <= st')%Q -> count_ge nd st' <= count_ge nd st.
Proof.
  intros Hs. unfold count_ge. apply inj_le.
  induction nd as [|e l IH]; simpl; [lia|].
  destruct (Qle_bool st' e) eqn:H1.
  - assert (H2 : Qle_bool st e = true).
    { apply Qle_bool_iff. apply (Qle_trans _ st'); [exact Hs|].
      apply Qle_bool_iff. exact H1. }
    rewrite H2. simpl. lia.
  - destruct (Qle_bool st e); simpl; lia.
Qed.

Lemma count_ge_all (nd : list Q) (st : Q) :
  (forall e, In e nd -> st <= e)%Q ->
  count_ge nd st = Z.of_nat (length nd).
Proof.
  intros Hall. unfold count_ge. f_equal.
  induction nd as [|e l IH]; simpl; [reflexivity|].
  rewrite (proj2 (Qle_bool_iff st e) (Hall e (or_introl eq_refl))).
  simpl. f_equal. apply IH. intros e' He'. apply Hall. right. exact He'.
Qed.

Lemma count_ge_none (nd : list Q) (st : Q) :
  (forall e, In e nd -> e < st)%Q -> count_ge nd st = 0.
Proof.
  intros Hnone. unfold count_ge.
  induction nd as [|e l IH]; simpl; [reflexivity|].
  destruct (Qle_bool st e) eqn:H1.
  - apply Qle_bool_iff in H1.
    pose proof (Hnone e (or_introl eq_refl)) as H2.
    exfalso. apply (Qlt_not_le _ _ H2). exact H1.
  - apply IH. intros e' He'. apply Hnone. right. exact He'.
Qed.

(** The p-value of a count [c] among [p] trials. *)
Lemma p_value_of_count (nd : list Q) (st : Q) (p : positive) :
  (p_value nd st (Zpos p)
   == if count_ge nd st =? 0 then 1 # p else count_ge nd st # p)%Q.
Proof.
  unfold p_value.
  pose proof (fraction (count_ge nd st) p) as Hraw.
  pose proof (fraction 1 p) as Hone.
  destruct (Qeq_bool (inject_Z (count_ge nd st) / inject_Z (Z.pos p)) 0)
    eqn:Hz.
  - apply Qeq_bool_iff in Hz. rewrite Hraw in Hz.
    unfold Qeq in Hz. simpl in Hz.
    destruct (Z.eqb_spec (count_ge nd st) 0) as [H0|H0]; [exact Hone|lia].
  - apply Qeq_bool_neq in Hz. rewrite Hraw in Hz.
    destruct (Z.eqb_spec (count_ge nd st) 0) as [H0|H0]; [|exact Hraw].
    exfalso. apply Hz. rewrite H0. reflexivity.
Qed.

(** X7. For [reps >= 1] the p-value does not grow with the observed
    statistic: a larger statistic never gets a larger p-value from the
    same null distribution. *)
Theorem p_value_antitone (nd : list Q) (st st' : Q) (reps : Z) :
  1 <= reps -> (st <= st')%Q ->
  (p_value nd st' reps <= p_value nd st reps)%Q.
Proof.
  intros Hreps Hs. destruct reps as [|p|p]; try lia.
  rewrite !p_value_of_count.
  pose proof (count_ge_antitone nd st st' Hs) as Hc.
  pose proof (count_ge_bounds nd st') as Hb.
  destruct (Z.eqb_spec (count_ge nd st') 0) as [H0'|H0'];
    destruct (Z.eqb_spec (count_ge nd st) 0) as [H0|H0];
    unfold Qle; simpl; nia.
Qed.

(** X8. For [reps >= 1] trials: when every value of the null
    distribution is at least the observed statistic the p-value is 1,
    and when every value is below it the p-value is [1 / reps]. *)
Theorem p_value_extremes (nd : list Q) (st : Q) (reps : Z) :
  1 <= reps -> Z.of_nat (length nd) = reps ->
  ((forall e, In e nd -> st <= e) -> p_value nd st reps == 1)%Q
  /\ ((forall e, In e nd -> e < st) ->
      p_value nd st reps == 1 / inject_Z reps)%Q.
Proof.
  intros Hreps Hlen. destruct reps as [|p|p]; try lia. split.
  - intros Hall. rewrite p_value_of_count, (count_ge_all nd st Hall), Hlen.
    simpl. unfold Qeq. simpl. lia.
  - intros Hnone.
    rewrite p_value_of_count, (count_ge_none nd st Hnone). simpl.
    symmetry. apply (fraction 1 p).
Qed.

End PValueOrder.

(** * Further properties of the permutation test *)

Section RunnerEdges.
Context `{NumpyRandom} `{Collaborators}.

Lemma range_nonpositive (n : Z) : n <= 0 -> range n = [].
Proof.
  intros Hn. unfold range.
  replace (Z.to_nat n) with 0%nat by lia. reflexivity.
Qed.

Lemma p_value_no_trials (st : Q) (p : positive) :
  (p_value [] st (Zneg p) == 1 / inject_Z (Zneg p))%Q
  /\ (p_value [] st (Zneg p) < 0)%Q.
Proof. split; [reflexivity|]. unfold Qlt. simpl. lia. Qed.

(** X9. Neither base class checks [reps]: for a negative [reps] a
    returning run has made no trial, stores an empty null
    distribution and returns the negative p-value [1 / reps]. *)
Theorem negative_reps_negative_pvalue
  (_statistic : np.ndarray -> np.ndarray -> M world Q) (reps : Z) :
  reps < 0 ->
  (forall x y workers w st pv w',
      IndependenceTest.test _statistic x y (PyInt reps) workers w
      = (inr (st, pv), w') ->
      obj.null_dist (fst w') = Some []
      /\ (pv == 1 / inject_Z reps)%Q /\ (pv < 0)%Q)
  /\ (forall inputs workers w st pv w',
         KSampleTest.test inputs (PyInt reps) workers w
         = (inr (st, pv), w') ->
         KSampleTest.null_dist (fst w') = Some []
         /\ (pv == 1 / inject_Z reps)%Q /\ (pv < 0)%Q).
Proof.
  intros Hreps. destruct reps as [|p|p]; try lia. split.
  - intros x y workers w st pv w' Ht.
    apply test_returns_inv in Ht.
    destruct Ht as [n [w0 [nd [w1 [Hn [Hst [Hnd [Hpv Hw']]]]]]]].
    inversion Hn; subst n. rewrite range_nonpositive in Hnd by lia.
    inversion Hnd; subst nd w1. subst w' pv. simpl.
    split; [reflexivity|]. apply p_value_no_trials.
  - intros inputs workers w st pv w' Ht.
    apply ks_test_returns_inv in Ht.
    destruct Ht as [u [v [n [w0 [nd [w1 [Hk [Hn [Hst [Hnd [Hpv Hw']]]]]]]]]]].
    inversion Hn; subst n. rewrite range_nonpositive in Hnd by lia.
    inversion Hnd; subst nd w1. subst w' pv. simpl.
    split; [reflexivity|]. apply p_value_no_trials.
Qed.



(** What a returning [HHG._statistic] has computed and stored. *)
Lemma HHG_statistic_inv (a b : np.ndarray) (w w' : world) (t : Q) :
  HHG._statistic a b w = (inr t, w') ->
  w' = (obj.set_stat (Some t) (fst w), snd w)
  /\ ((obj.is_distance (fst w) = true /\ t = _hhg a b)
      \/ (obj.is_distance (fst w) = false
          /\ exists f, obj.compute_distance (fst w) = Some (Callable f)
                       /\ t = _hhg (f a) (f b))).
Proof.
  destruct w as [o g].
  unfold HHG._statistic, bind, self_get, self_set, call, ret, raise.
  simpl. destruct (obj.is_distance o) eqn:Hd; simpl.
  - intros Hs. inversion Hs; subst. split; [reflexivity|].
    left. split; reflexivity.
  - destruct (obj.compute_distance o) as [[f|tr]|] eqn:Hc; simpl;
      intros Hs; try discriminate Hs.
    inversion Hs; subst. split; [reflexivity|].
    right. split; [reflexivity|]. exists f. split; reflexivity.
Qed.

(** [HHG._statistic] assigns [stat] at most. *)
Lemma HHG_statistic_frame (a b : np.ndarray) (w : world) :
  let w' := snd (HHG._statistic a b w) in
  obj.null_dist (fst w') = obj.null_dist (fst w)
  /\ obj.pvalue (fst w') = obj.pvalue (fst w)
  /\ obj.is_distance (fst w') = obj.is_distance (fst w)
  /\ obj.compute_distance (fst w') = obj.compute_distance (fst w)
  /\ snd w' = snd w.
Proof.
  destruct w as [o g].
  unfold HHG._statistic, bind, self_get, self_set, call, ret, raise.
  simpl. destruct (obj.is_distance o) eqn:Hd; simpl.
  - repeat split; assumption.
  - destruct (obj.compute_distance o) as [[f|tr]|] eqn:Hc; simpl;
      repeat split; assumption.
Qed.

(** X12. The statistic [HHG.test] returns is [_hhg] of the validated
    arrays, through the metric unless they are declared distance
    matrices: it does not depend on [reps], on [workers] or on the
    state of the generator. *)
Theorem HHG_test_statistic (x y reps : pyobj) (workers : Z)
  (self : obj.attrs) (g : RNG) (st pv : Q) (w' : world) :
  HHG.test x y reps workers (self, g) = (inr (st, pv), w') ->
  exists ax ay,
    _CheckInputs x y reps (obj.compute_distance self) = inr (ax, ay)
    /\ ((obj.is_distance self = true /\ st = _hhg ax ay)
        \/ (obj.is_distance self = false
            /\ exists f, obj.compute_distance self = Some (Callable f)
                         /\ st = _hhg (f ax) (f ay))).
Proof.
  unfold HHG.test. intros Ht.
  apply bind_returns in Ht. destruct Ht as [cd [s1 [H1 Ht]]].
  unfold self_get in H1. inversion H1; subst cd s1. clear H1.
  apply bind_returns in Ht. destruct Ht as [[ax ay] [s2 [H2 Ht]]].
  unfold lift_result in H2. simpl in H2. inversion H2 as [[Hv Hs]].
  subst s2. clear H2.
  apply bind_returns in Ht. destruct Ht as [d [s3 [H3 Ht]]].
  inversion H3; subst d s3. clear H3.
  apply bind_returns in Ht. destruct Ht as [[] [s4 [H4 Ht]]].
  assert (Hs4 : s4 = (self, g)).
  { simpl in H4. destruct (obj.is_distance self).
    - unfold lift_result in H4. inversion H4. reflexivity.
    - inversion H4. reflexivity. }
  subst s4. simpl fst in Ht. simpl snd in Ht.
  apply test_returns_inv in Ht.
  destruct Ht as [n [w0 [nd [w1 [Hn [Hst _]]]]]].
  apply HHG_statistic_inv in Hst. destruct Hst as [_ Hst].
  exists ax, ay. split; [exact Hv|exact Hst].
Qed.

End RunnerEdges.

Section RunnerState.
Context `{NumpyRandom} `{Collaborators}.

(** The last step of a map that returns decides what an observation
    of the state shows, when every step leaves its own result there. *)
Lemma mapM_last {S A B : Type} (f : A -> M S B) (obs : S -> option B) :
  (forall a s b s', f a s = (inr b, s') -> obs s' = Some b) ->
  forall l s r s' d,
    l <> [] -> mapM f l s = (inr r, s') -> obs s' = Some (last r d).
Proof.
  intros Hf. induction l as [|a l IH]; intros s r s' d Hne Hm;
    [congruence|].
  simpl in Hm.
  apply bind_returns in Hm. destruct Hm as [b [s1 [Hb Hm]]].
  apply bind_returns in Hm. destruct Hm as [bs [s2 [Hbs Hm]]].
  inversion Hm; subst r s2. clear Hm.
  destruct l as [|a' l'].
  - simpl in Hbs. inversion Hbs; subst bs s1. simpl.
    apply (Hf _ _ _ _ Hb).
  - pose proof (mapM_length _ _ _ _ _ Hbs) as Hlen.
    destruct bs as [|b' bs']; [discriminate Hlen|].
    change (last (b :: b' :: bs') d) with (last (b' :: bs') d).
    apply (IH s1 (b' :: bs') s' d); [discriminate|exact Hbs].
Qed.

(** A map changes no observation of the state that its steps keep,
    whether it returns or raises. *)
Lemma mapM_frame {S A B C : Type} (f : A -> M S B) (obs : S -> C) :
  (forall a s, obs (snd (f a s)) = obs s) ->
  forall l s, obs (snd (mapM f l s)) = obs s.
Proof.
  intros Hf. induction l as [|a l IH]; intros s; simpl; [reflexivity|].
  unfold bind. pose proof (Hf a s) as Ha.
  destruct (f a s) as [[e|b] s1]; simpl in Ha; [exact Ha|].
  pose proof (IH s1) as Hl.
  destruct (mapM f l s1) as [[e|bs] s2]; simpl in Hl |- *; congruence.
Qed.

Lemma HHG_perm_stat_sets_stat (index : Z) (w : world) (t : Q)
  (w' : world) :
  IndependenceTest._perm_stat HHG._statistic index w = (inr t, w') ->
  obj.stat (fst w') = Some t.
Proof.
  unfold IndependenceTest._perm_stat. intros Hp.
  apply bind_returns in Hp. destruct Hp as [sx [s1 [_ Hp]]].
  apply bind_returns in Hp. destruct Hp as [permx [s2 [_ Hp]]].
  apply bind_returns in Hp. destruct Hp as [sy [s3 [_ Hp]]].
  apply bind_returns in Hp. destruct Hp as [permy [s4 [_ Hp]]].
  apply bind_returns in Hp. destruct Hp as [t' [s5 [Hs Hp]]].
  inversion Hp; subst t' s5.
  apply HHG_statistic_inv in Hs. destruct Hs as [-> _]. reflexivity.
Qed.

(** X13. With the sequential map ([workers = 1]) every trial runs
    [_statistic] on the test object itself, which assigns [self.stat]:
    after a returning run of [reps >= 1] trials the attribute [stat]
    of an [HHG] object holds the value of the last trial, the last
    entry of the null distribution, and not the observed statistic
    that the run returns; [pvalue] holds the returned p-value. *)
Theorem stat_attribute_is_last_trial (x y : np.ndarray) (reps : Z)
  (w w' : world) (st pv : Q) :
  1 <= reps ->
  IndependenceTest.test HHG._statistic x y (PyInt reps) 1 w
  = (inr (st, pv), w') ->
  exists nd,
    obj.null_dist (fst w') = Some nd
    /\ obj.stat (fst w') = Some (last nd 0%Q)
    /\ obj.pvalue (fst w') = Some pv.
Proof.
  intros Hreps Ht. apply test_returns_inv in Ht.
  destruct Ht as [n [w0 [nd [w1 [Hn [Hst [Hnd [Hpv Hw']]]]]]]].
  inversion Hn; subst n. exists nd. subst w'. simpl.
  split; [reflexivity|]. split; [|reflexivity].
  apply (mapM_last (IndependenceTest._perm_stat HHG._statistic)
           (fun w => obj.stat (fst w)) HHG_perm_stat_sets_stat
           (range reps) w0 nd w1 0%Q); [|exact Hnd].
  intros Hr. pose proof (range_length reps) as Hl. rewrite Hr in Hl.
  simpl in Hl. lia.
Qed.

Lemma HHG_perm_stat_frame (index : Z) (w : world) :
  let w' := snd (IndependenceTest._perm_stat HHG._statistic index w) in
  (obj.null_dist (fst w'), obj.pvalue (fst w'))
  = (obj.null_dist (fst w), obj.pvalue (fst w)).
Proof.
  destruct w as [o g].
  unfold IndependenceTest._perm_stat, bind, getattr, np_random_permutation,
    ret.
  simpl. destruct (obj.x o) as [sx|]; simpl; [|reflexivity].
  destruct (permutation g sx) as [permx g1]. simpl.
  destruct (obj.y o) as [sy|]; simpl; [|reflexivity].
  destruct (permutation g1 sy) as [permy g2]. simpl.
  pose proof (HHG_statistic_frame permx permy (o, g2))
    as [Hnd [Hpv _]].
  destruct (HHG._statistic permx permy (o, g2)) as [[e|t] w1];
    simpl in Hnd, Hpv |- *; congruence.
Qed.

(** A run of the base test on the statistic of [HHG] that raises. *)
Lemma HHG_base_test_raises (x y : np.ndarray) (reps : pyobj) (workers : Z)
  (w w' : world) (e : exn) :
  IndependenceTest.test HHG._statistic x y reps workers w = (inl e, w') ->
  obj.null_dist (fst w') = obj.null_dist (fst w)
  /\ obj.pvalue (fst w') = obj.pvalue (fst w).
Proof.
  destruct w as [o g].
  unfold IndependenceTest.test, bind, self_set, py_int, MapWrapper, ret,
    raise.
  simpl.
  pose proof (HHG_statistic_frame x y (obj.set_y y (obj.set_x x o), g))
    as [Hnd [Hpv _]].
  destruct (HHG._statistic x y (obj.set_y y (obj.set_x x o), g))
    as [[e0|st] w0]; simpl in Hnd, Hpv.
  - intros Ht. inversion Ht; subst. split; assumption.
  - destruct reps as [|n| | |];
      try (intros Ht; inversion Ht; subst; split; assumption).
    pose proof (mapM_frame (IndependenceTest._perm_stat HHG._statistic)
                  (fun w => (obj.null_dist (fst w), obj.pvalue (fst w)))
                  HHG_perm_stat_frame (range n) w0) as Hm.
    destruct (mapM (IndependenceTest._perm_stat HHG._statistic) (range n) w0)
      as [[e1|nd] w1]; simpl in Hm |- *.
    + intros Ht. inversion Ht; subst. inversion Hm. split; congruence.
    + intros Ht. discriminate Ht.
Qed.

(** X14. A run of [HHG.test] that raises, in the validation, in the
    observed statistic, at [range(reps)] or in any trial, leaves the
    attributes [null_dist] and [pvalue] of the object as they were:
    no partial null distribution is kept. *)
Theorem failed_test_keeps_no_result (x y reps : pyobj) (workers : Z)
  (self : obj.attrs) (g : RNG) (e : exn) (w' : world) :
  HHG.test x y reps workers (self, g) = (inl e, w') ->
  obj.null_dist (fst w') = obj.null_dist self
  /\ obj.pvalue (fst w') = obj.pvalue self.
Proof.
  unfold HHG.test, bind, self_get, lift_result. simpl.
  destruct (_CheckInputs x y reps (obj.compute_distance self))
    as [e0|[ax ay]]; simpl.
  - intros Ht. inversion Ht; subst. split; reflexivity.
  - destruct (obj.is_distance self); simpl.
    + destruct (check_xy_distmat ax ay) as [e1|[]]; simpl.
      * intros Ht. inversion Ht; subst. split; reflexivity.
      * intros Ht. apply HHG_base_test_raises in Ht. exact Ht.
    + intros Ht. apply HHG_base_test_raises in Ht. exact Ht.
Qed.

(** X15. [Hsic._statistic] is the statistic of [Hsic.test] with
    [reps = 1000] and [workers = -1]: it raises what that test raises,
    it leaves the generator where that test leaves it, all the trials
    drawn, and it assigns no [pvalue]. *)
Theorem Hsic_statistic_runs_whole_test (x y : pyobj) (self : obj.attrs)
  (g : RNG) :
  returned (Hsic._statistic x y (self, g))
  = match returned (Hsic.test x y (PyInt 1000) (-1) (self, g)) with
    | inr (st, _) => inr st
    | inl e => inl e
    end
  /\ snd (final (Hsic._statistic x y (self, g)))
     = snd (final (Hsic.test x y (PyInt 1000) (-1) (self, g)))
  /\ obj.pvalue (fst (final (Hsic._statistic x y (self, g))))
     = obj.pvalue self.
Proof.
  unfold Hsic._statistic, Hsic.test, Hsic.on_local, bind, self_get,
    self_set, ret, returned, final.
  simpl.
  destruct (Dcorr.test x y (PyInt 1000) (-1)
              (Dcorr.__init__ (obj.compute_kernel self) obj.empty, g))
    as [[e|[st pv]] [o' g']]; simpl; repeat split; reflexivity.
Qed.

(** X16. [Hsic.test] assigns [stat] and [pvalue] when the delegated
    test returns and nothing when it raises: every other attribute of
    the object is as it was. *)
Theorem Hsic_test_assigns_result_only (x y reps : pyobj) (workers : Z)
  (self : obj.attrs) (g : RNG) :
  (forall e,
      returned (Hsic.test x y reps workers (self, g)) = inl e ->
      fst (final (Hsic.test x y reps workers (self, g))) = self)
  /\ (forall st pv,
         returned (Hsic.test x y reps workers (self, g)) = inr (st, pv) ->
         fst (final (Hsic.test x y reps workers (self, g)))
         = obj.set_pvalue (Some pv) (obj.set_stat (Some st) self)).
Proof.
  unfold Hsic.test, Hsic.on_local, bind, self_get, self_set, ret,
    returned, final.
  simpl.
  destruct (Dcorr.test x y reps workers
              (Dcorr.__init__ (obj.compute_kernel self) obj.empty, g))
    as [[e|[st pv]] [o' g']]; simpl; split.
  - intros e0 _. reflexivity.
  - intros st pv Hr. discriminate Hr.
  - intros e0 Hr. discriminate Hr.
  - intros st0 pv0 Hr. inversion Hr; subst. reflexivity.
Qed.



End RunnerState.

(** * Further properties of the k-sample test *)

Section KSampleEdges.
Context `{NumpyRandom} `{Collaborators}.

Lemma ks_init_HHG (cd : option metric) (self : KSampleTest.attrs) :
  KSampleTest.__init__ cls.HHG cd self
  = inr (KSampleTest.mk None None cd
           (Some (cls.HHG, HHG.__init__ cd obj.empty))
           (KSampleTest.u self) (KSampleTest.v self)
           (KSampleTest.null_dist self)).
Proof. reflexivity. Qed.


(** X19. The k-sample classes validate nothing: a metric that is true
    and not callable is accepted by the constructor, and the test then
    raises [TypeError] in the observed statistic, whatever [reps] is,
    with [u] and [v] assigned, no permutation drawn and no null
    distribution stored. *)
Theorem KSampleTest_bad_metric_raises_in_test
  (inputs : list np.ndarray) (reps : pyobj) (workers : Z)
  (self o : KSampleTest.attrs) (g : RNG) (u v : np.ndarray) :
  KSampleTest.__init__ cls.HHG (Some (NotCallable true)) self = inr o ->
  k_sample_transform inputs = inr (u, v) ->
  KSampleTest.test inputs reps workers (o, g)
  = (inl TypeError, (KSampleTest.set_v v (KSampleTest.set_u u o), g)).
Proof.
  intros Ho Hk. rewrite ks_init_HHG in Ho. inversion Ho; subst o.
  unfold KSampleTest.test, bind, lift_result. rewrite Hk. reflexivity.
Qed.

Lemma ks_perm_stat_frame (index : Z) (w : KSampleTest.ks_world) :
  let w' := snd (KSampleTest._perm_stat index w) in
  (KSampleTest.stat (fst w'), KSampleTest.compute_distance (fst w'))
  = (KSampleTest.stat (fst w), KSampleTest.compute_distance (fst w)).
Proof.
  destruct w as [o g].
  unfold KSampleTest._perm_stat, bind, KSampleTest.ks_getattr,
    np_random_permutation, KSampleTest.indep_statistic, ret.
  simpl. destruct (KSampleTest.u o) as [su|]; simpl; [|reflexivity].
  destruct (permutation g su) as [permu g1]. simpl.
  destruct (KSampleTest.v o) as [sv|]; simpl; [|reflexivity].
  destruct (permutation g1 sv) as [permv g2]. simpl.
  destruct (KSampleTest.indep_test o) as [[c io]|]; simpl; [|reflexivity].
  destruct (statistic_of c permu permv (io, g2)) as [[e|t] [io' g3]];
    reflexivity.
Qed.

Lemma ks_trials_keep_uv (u v : np.ndarray) (l : list Z)
  (w0 : KSampleTest.ks_world) (nd : list Q) (w1 : KSampleTest.ks_world) :
  KSampleTest.u (fst w0) = Some u /\ KSampleTest.v (fst w0) = Some v ->
  mapM KSampleTest._perm_stat l w0 = (inr nd, w1) ->
  KSampleTest.u (fst w1) = Some u /\ KSampleTest.v (fst w1) = Some v.
Proof.
  intros Hinv Hnd.
  pose proof (mapM_frame KSampleTest._perm_stat
                (fun w => (KSampleTest.u (fst w), KSampleTest.v (fst w))))
    as Hfr.
  assert (Hstep : forall a s,
             (KSampleTest.u (fst (snd (KSampleTest._perm_stat a s))),
              KSampleTest.v (fst (snd (KSampleTest._perm_stat a s))))
             = (KSampleTest.u (fst s), KSampleTest.v (fst s))).
  { intros a [o g].
    unfold KSampleTest._perm_stat, bind, KSampleTest.ks_getattr,
      np_random_permutation, KSampleTest.indep_statistic, ret.
    simpl. destruct (KSampleTest.u o) as [su|] eqn:Eu; simpl;
      [|rewrite Eu; reflexivity].
    destruct (permutation g su) as [permu g1]. simpl.
    destruct (KSampleTest.v o) as [sv|] eqn:Ev; simpl;
      [|rewrite Eu, Ev; reflexivity].
    destruct (permutation g1 sv) as [permv g2]. simpl.
    destruct (KSampleTest.indep_test o) as [[c io]|]; simpl;
      [|rewrite Eu, Ev; reflexivity].
    destruct (statistic_of c permu permv (io, g2)) as [[e|t] [io' g3]];
      simpl; rewrite Eu, Ev; reflexivity. }
  specialize (Hfr Hstep l w0). rewrite Hnd in Hfr. simpl in Hfr.
  inversion Hfr. destruct Hinv as [Hu Hv]. split; congruence.
Qed.

(** X20. A returning [KSampleTest.test] leaves on its object the two
    arrays of the transform as [u] and [v] and the returned p-value as
    [pvalue]; it never assigns [stat], which is as it was before the
    run, and the observed statistic is only returned. *)
Theorem KSampleTest_test_attributes (inputs : list np.ndarray)
  (reps : pyobj) (workers : Z) (w w' : KSampleTest.ks_world) (st pv : Q) :
  KSampleTest.test inputs reps workers w = (inr (st, pv), w') ->
  exists u v,
    k_sample_transform inputs = inr (u, v)
    /\ KSampleTest.u (fst w') = Some u
    /\ KSampleTest.v (fst w') = Some v
    /\ KSampleTest.pvalue (fst w') = Some pv
    /\ KSampleTest.stat (fst w') = KSampleTest.stat (fst w)
    /\ KSampleTest.compute_distance (fst w')
       = KSampleTest.compute_distance (fst w).
Proof.
  intros Ht. apply ks_test_returns_inv in Ht.
  destruct Ht as [u [v [n [w0 [nd [w1 [Hk [Hn [Hst [Hnd [Hpv Hw']]]]]]]]]]].
  exists u, v. split; [exact Hk|].
  assert (Hinv : KSampleTest.u (fst w0) = Some u
                 /\ KSampleTest.v (fst w0) = Some v).
  { pose proof (indep_statistic_keeps_uv u v
                  (KSampleTest.set_v v (KSampleTest.set_u u (fst w)), snd w))
      as [Hku Hkv].
    rewrite Hst in Hku, Hkv. simpl in Hku, Hkv. split; assumption. }
  assert (Huv : KSampleTest.u (fst w1) = Some u
                /\ KSampleTest.v (fst w1) = Some v).
  { apply (ks_trials_keep_uv u v (range n) w0 nd w1 Hinv Hnd). }
  assert (Hfr0 : (KSampleTest.stat (fst w0),
                  KSampleTest.compute_distance (fst w0))
                 = (KSampleTest.stat (fst w),
                    KSampleTest.compute_distance (fst w))).
  { revert Hst. unfold KSampleTest.indep_statistic. simpl.
    destruct (KSampleTest.indep_test (fst w)) as [[c io]|];
      [|intros Hs; discriminate Hs].
    destruct (statistic_of c u v (io, snd w)) as [r [io' g']].
    intros Hs. inversion Hs; subst. reflexivity. }
  pose proof (mapM_frame KSampleTest._perm_stat
                (fun w => (KSampleTest.stat (fst w),
                           KSampleTest.compute_distance (fst w)))
                ks_perm_stat_frame (range n) w0) as Hfr.
  rewrite Hnd in Hfr. simpl in Hfr.
  subst w'. simpl. destruct Huv as [Hu Hv].
  inversion Hfr0. inversion Hfr.
  repeat split; try assumption; try reflexivity; congruence.
Qed.

End KSampleEdges.

(** * A test starts from scratch *)

Section Lifecycle.
Context `{NumpyRandom} `{Collaborators}.

Lemma mapM_rel {S A B : Type} (f : A -> M S B) (R : S -> S -> Prop) :
  (forall a s1 s2, R s1 s2 ->
     fst (f a s1) = fst (f a s2) /\ R (snd (f a s1)) (snd (f a s2))) ->
  forall l s1 s2, R s1 s2 ->
    fst (mapM f l s1) = fst (mapM f l s2)
    /\ R (snd (mapM f l s1)) (snd (mapM f l s2)).
Proof.
  intros Hf. induction l as [|a l IH]; intros s1 s2 HR; simpl.
  - split; [reflexivity|exact HR].
  - unfold bind. destruct (Hf a s1 s2 HR) as [Heq HR1].
    destruct (f a s1) as [[e1|b1] t1], (f a s2) as [[e2|b2] t2];
      simpl in Heq, HR1; try discriminate Heq.
    + inversion Heq; subst e2. split; [reflexivity|exact HR1].
    + inversion Heq; subst b2.
      destruct (IH t1 t2 HR1) as [Heq' HR2].
      destruct (mapM f l t1) as [[e1|bs1] u1],
        (mapM f l t2) as [[e2|bs2] u2];
        simpl in Heq', HR2; try discriminate Heq'.
      * split; [exact Heq'|exact HR2].
      * inversion Heq'; subst bs2. split; [reflexivity|exact HR2].
Qed.

Lemma HHG_statistic_rel (a b : np.ndarray) (w1 w2 : world) :
  same_inputs w1 w2 ->
  fst (HHG._statistic a b w1) = fst (HHG._statistic a b w2)
  /\ same_inputs (snd (HHG._statistic a b w1)) (snd (HHG._statistic a b w2)).
Proof.
  destruct w1 as [o1 g1], w2 as [o2 g2].
  unfold same_inputs. simpl. intros [Hg [Hd [Hc [Hx Hy]]]]. subst g2.
  unfold HHG._statistic, bind, self_get, self_set, call, ret, raise.
  simpl. rewrite <- Hd.
  destruct (obj.is_distance o1) eqn:E1; simpl.
  - repeat split; congruence.
  - rewrite <- Hc.
    destruct (obj.compute_distance o1) as [[f|t]|] eqn:E2; simpl;
      repeat split; congruence.
Qed.

Lemma HHG_perm_stat_rel (index : Z) (w1 w2 : world) :
  same_inputs w1 w2 ->
  fst (IndependenceTest._perm_stat HHG._statistic index w1)
  = fst (IndependenceTest._perm_stat HHG._statistic index w2)
  /\ same_inputs
       (snd (IndependenceTest._perm_stat HHG._statistic index w1))
       (snd (IndependenceTest._perm_stat HHG._statistic index w2)).
Proof.
  destruct w1 as [o1 g1], w2 as [o2 g2]. intros HR.
  pose proof HR as [Hg [Hd [Hc [Hx Hy]]]]. simpl in Hg, Hd, Hc, Hx, Hy.
  subst g2.
  unfold IndependenceTest._perm_stat, bind, getattr, np_random_permutation,
    ret.
  simpl. rewrite <- Hx.
  destruct (obj.x o1) as [sx|] eqn:Ex; simpl;
    [|split; [reflexivity|exact HR]].
  destruct (permutation g1 sx) as [permx g3]. simpl. rewrite <- Hy.
  destruct (obj.y o1) as [sy|] eqn:Ey; simpl.
  - destruct (permutation g3 sy) as [permy g4]. simpl.
    assert (HR' : same_inputs (o1, g4) (o2, g4))
      by (unfold same_inputs; simpl; repeat split; congruence).
    destruct (HHG_statistic_rel permx permy _ _ HR') as [Heq HR2].
    destruct (HHG._statistic permx permy (o1, g4)) as [[e1|t1] u1],
      (HHG._statistic permx permy (o2, g4)) as [[e2|t2] u2];
      simpl in Heq, HR2 |- *; try discriminate Heq; split; assumption.
  - split; [reflexivity|].
    unfold same_inputs; simpl; repeat split; congruence.
Qed.

Lemma HHG_base_test_rel (x y : np.ndarray) (reps : pyobj) (workers : Z)
  (o1 o2 : obj.attrs) (g : RNG) :
  obj.is_distance o1 = obj.is_distance o2 ->
  obj.compute_distance o1 = obj.compute_distance o2 ->
  fst (IndependenceTest.test HHG._statistic x y reps workers (o1, g))
  = fst (IndependenceTest.test HHG._statistic x y reps workers (o2, g))
  /\ snd (snd (IndependenceTest.test HHG._statistic x y reps workers
                 (o1, g)))
     = snd (snd (IndependenceTest.test HHG._statistic x y reps workers
                   (o2, g))).
Proof.
  intros Hd Hc.
  unfold IndependenceTest.test, bind, self_set, py_int, MapWrapper, ret,
    raise.
  simpl.
  assert (HR : same_inputs (obj.set_y y (obj.set_x x o1), g)
                           (obj.set_y y (obj.set_x x o2), g))
    by (unfold same_inputs; simpl; repeat split; assumption).
  destruct (HHG_statistic_rel x y _ _ HR) as [Heq HR1].
  destruct (HHG._statistic x y (obj.set_y y (obj.set_x x o1), g))
    as [[e1|st1] u1],
    (HHG._statistic x y (obj.set_y y (obj.set_x x o2), g))
    as [[e2|st2] u2];
    simpl in Heq, HR1; try discriminate Heq.
  - inversion Heq; subst e2. split; [reflexivity|apply HR1].
  - inversion Heq; subst st2.
    destruct reps as [|n| | |]; try (split; [reflexivity|apply HR1]).
    destruct (mapM_rel (IndependenceTest._perm_stat HHG._statistic)
                same_inputs HHG_perm_stat_rel (range n) u1 u2 HR1)
      as [Heq' HR2].
    destruct (mapM (IndependenceTest._perm_stat HHG._statistic) (range n) u1)
      as [[e1|nd1] v1],
      (mapM (IndependenceTest._perm_stat HHG._statistic) (range n) u2)
      as [[e2|nd2] v2];
      simpl in Heq', HR2 |- *; try discriminate Heq'.
    + inversion Heq'; subst e2. split; [reflexivity|apply HR2].
    + inversion Heq'; subst nd2. split; [reflexivity|apply HR2].
Qed.

(** X21. [HHG.test] starts from scratch: what it returns or raises,
    and the generator state it leaves, depend on the object through
    its metric and [is_distance] only, not on the [stat], [pvalue],
    [null_dist], [x] or [y] that an earlier test left on it. *)
Theorem HHG_test_ignores_earlier_results (x y reps : pyobj) (workers : Z)
  (self1 self2 : obj.attrs) (g : RNG) :
  obj.compute_distance self1 = obj.compute_distance self2 ->
  obj.is_distance self1 = obj.is_distance self2 ->
  returned (HHG.test x y reps workers (self1, g))
  = returned (HHG.test x y reps workers (self2, g))
  /\ snd (final (HHG.test x y reps workers (self1, g)))
     = snd (final (HHG.test x y reps workers (self2, g))).
Proof.
  intros Hc Hd.
  unfold HHG.test, bind, self_get, lift_result, returned, final. simpl.
  rewrite <- Hc, <- Hd.
  destruct (_CheckInputs x y reps (obj.compute_distance self1))
    as [e0|[ax ay]]; simpl; [split; reflexivity|].
  destruct (obj.is_distance self1) eqn:Hd1; simpl.
  - destruct (check_xy_distmat ax ay) as [e1|[]]; simpl;
      [split; reflexivity|].
    apply HHG_base_test_rel; congruence.
  - apply HHG_base_test_rel; congruence.
Qed.

End Lifecycle.

Lemma HHG_test_ignores_earlier_results_witness :
  obj.compute_distance new_HHG
  = obj.compute_distance (fst (final run_HHG))
  /\ obj.is_distance new_HHG = obj.is_distance (fst (final run_HHG))
  /\ returned (@HHG.test counter_rng collaborators (of_array (arange 5))
                 (of_array (arange 5)) (PyInt 3) 1 (new_HHG, 2%nat))
     = returned (@HHG.test counter_rng collaborators (of_array (arange 5))
                   (of_array (arange 5)) (PyInt 3) 1
                   (fst (final run_HHG), 2%nat))
  /\ snd (final (@HHG.test counter_rng collaborators (of_array (arange 5))
                   (of_array (arange 5)) (PyInt 3) 1 (new_HHG, 2%nat)))
     = snd (final (@HHG.test counter_rng collaborators
                     (of_array (arange 5)) (of_array (arange 5)) (PyInt 3) 1
                     (fst (final run_HHG), 2%nat))).
Proof.
  assert (Hc : obj.compute_distance new_HHG
               = obj.compute_distance (fst (final run_HHG)))
    by (vm_compute; reflexivity).
  assert (Hd : obj.is_distance new_HHG
               = obj.is_distance (fst (final run_HHG)))
    by (vm_compute; reflexivity).
  split; [exact Hc|]. split; [exact Hd|].
  exact (@HHG_test_ignores_earlier_results counter_rng collaborators
           (of_array (arange 5)) (of_array (arange 5)) (PyInt 3) 1
           new_HHG (fst (final run_HHG)) 2%nat Hc Hd).
Defined.

(** * The further properties at concrete inputs *)

Lemma hhg_small_sample_witness :
  (np.shape0 (ones_minus_identity 2 1) <= 2)%nat
  /\ (_hhg (ones_minus_identity 2 1) (ones_minus_identity 2 3) == 0)%Q.
Proof.
  assert (Hn : (np.shape0 (ones_minus_identity 2 1) <= 2)%nat)
    by (simpl; lia).
  split; [exact Hn|].
  exact (hhg_small_sample (ones_minus_identity 2 1)
           (ones_minus_identity 2 3) Hn).
Defined.


Lemma hhg_rank_invariant_witness :
  np.square 4 (euclidean_1d (arange 4))
  /\ np.square 4 (euclidean_1d (arange 4))
  /\ (forall a b, Qle_bool (2 * a) (2 * b) = Qle_bool a b)
  /\ (forall a b, Qle_bool (3 * a) (3 * b) = Qle_bool a b)
  /\ _hhg (map (map (Qmult 2)) (euclidean_1d (arange 4)))
          (map (map (Qmult 3)) (euclidean_1d (arange 4)))
     = _hhg (euclidean_1d (arange 4)) (euclidean_1d (arange 4)).
Proof.
  assert (Hx : np.square 4 (euclidean_1d (arange 4)))
    by (apply squareb_sound; vm_compute; reflexivity).
  assert (H2 : forall a b, Qle_bool (2 * a) (2 * b) = Qle_bool a b)
    by (apply scale_keeps_order; reflexivity).
  assert (H3 : forall a b, Qle_bool (3 * a) (3 * b) = Qle_bool a b)
    by (apply scale_keeps_order; reflexivity).
  split; [exact Hx|]. split; [exact Hx|].
  split; [exact H2|]. split; [exact H3|].
  exact (hhg_rank_invariant 4 (Qmult 2) (Qmult 3) _ _ Hx Hx H2 H3).
Defined.

Lemma hhg_zero_without_ranks_witness :
  np.square 4 (ones_minus_identity 4 1)
  /\ np.square 4 (euclidean_1d (arange 4))
  /\ (forall i j k, (i < 4)%nat -> (j < 4)%nat -> (k < 4)%nat -> i <> j ->
                    np.item (ones_minus_identity 4 1) i k
                    <= np.item (ones_minus_identity 4 1) i j)%Q
  /\ (_hhg (ones_minus_identity 4 1) (euclidean_1d (arange 4)) == 0)%Q.
Proof.
  assert (Hx : np.square 4 (ones_minus_identity 4 1))
    by (apply squareb_sound; vm_compute; reflexivity).
  assert (Hy : np.square 4 (euclidean_1d (arange 4)))
    by (apply squareb_sound; vm_compute; reflexivity).
  assert (Hflat : forall i j k,
             (i < 4)%nat -> (j < 4)%nat -> (k < 4)%nat -> i <> j ->
             (np.item (ones_minus_identity 4 1) i k
              <= np.item (ones_minus_identity 4 1) i j)%Q).
  { intros i j k Hi Hj Hk Hne.
    destruct i as [|[|[|[|i]]]]; try lia;
      destruct j as [|[|[|[|j]]]]; try lia;
      destruct k as [|[|[|[|k]]]]; try lia;
      unfold Qle; simpl; lia. }
  split; [exact Hx|]. split; [exact Hy|]. split; [exact Hflat|].
  exact (hhg_zero_without_ranks 4 _ _ Hx Hy Hflat).
Defined.

Lemma p_value_order_free_witness :
  Permutation [1; 2; 3]%Q [2; 1; 3]%Q
  /\ p_value [1; 2; 3]%Q 2 3 = p_value [2; 1; 3]%Q 2 3.
Proof.
  assert (Hp : Permutation [1; 2; 3]%Q [2; 1; 3]%Q) by apply perm_swap.
  split; [exact Hp|].
  exact (p_value_order_free _ _ 2%Q 3 Hp).
Defined.

Lemma p_value_antitone_witness :
  1 <= 3 /\ (1 <= 2)%Q
  /\ (p_value [1; 2; 3]%Q 2 3 <= p_value [1; 2; 3]%Q 1 3)%Q.
Proof.
  assert (Hr : 1 <= 3) by lia.
  assert (Hs : (1 <= 2)%Q) by (unfold Qle; simpl; lia).
  split; [exact Hr|]. split; [exact Hs|].
  exact (p_value_antitone [1; 2; 3]%Q 1 2 3 Hr Hs).
Defined.

Lemma p_value_extremes_witness :
  1 <= 3 /\ Z.of_nat (length [1; 2; 3]%Q) = 3
  /\ (forall e, In e [1; 2; 3] -> 0 <= e)%Q
  /\ (forall e, In e [1; 2; 3] -> e < 5)%Q
  /\ (p_value [1; 2; 3] 0 3 == 1)%Q
  /\ (p_value [1; 2; 3] 5 3 == 1 / inject_Z 3)%Q.
Proof.
  assert (Hr : 1 <= 3) by lia.
  assert (Hl : Z.of_nat (length [1; 2; 3]%Q) = 3) by reflexivity.
  assert (Hall : forall e, In e [1; 2; 3]%Q -> (0 <= e)%Q)
    by (intros e [<-|[<-|[<-|[]]]]; unfold Qle; simpl; lia).
  assert (Hnone : forall e, In e [1; 2; 3]%Q -> (e < 5)%Q)
    by (intros e [<-|[<-|[<-|[]]]]; unfold Qlt; simpl; lia).
  split; [exact Hr|]. split; [exact Hl|].
  split; [exact Hall|]. split; [exact Hnone|]. split.
  - exact (proj1 (p_value_extremes [1; 2; 3]%Q 0 3 Hr Hl) Hall).
  - exact (proj2 (p_value_extremes [1; 2; 3]%Q 5 3 Hr Hl) Hnone).
Defined.

Lemma negative_reps_negative_pvalue_witness :
  -2 < 0
  /\ (obj.null_dist (fst (final run_negative)) = Some []
      /\ (pvalue_of run_negative == 1 / inject_Z (-2))%Q
      /\ (pvalue_of run_negative < 0)%Q)
  /\ (KSampleTest.null_dist (fst (final run_KSample_negative)) = Some []
      /\ (pvalue_of run_KSample_negative == 1 / inject_Z (-2))%Q
      /\ (pvalue_of run_KSample_negative < 0)%Q).
Proof.
  assert (Hr : -2 < 0) by lia.
  assert (Hb : @IndependenceTest.test counter_rng
                 (@HHG._statistic counter_rng)
                 (arange 5) (arange 5) (PyInt (-2)) 1 (new_HHG, 0%nat)
               = (inr (stat_of run_negative, pvalue_of run_negative),
                  final run_negative))
    by (vm_compute; reflexivity).
  assert (Hk : @KSampleTest.test counter_rng collaborators
                 [arange 3; arange 2] (PyInt (-2)) 1 (new_KSample, 1%nat)
               = (inr (stat_of run_KSample_negative,
                       pvalue_of run_KSample_negative),
                  final run_KSample_negative))
    by (vm_compute; reflexivity).
  split; [exact Hr|].
  destruct (@negative_reps_negative_pvalue counter_rng collaborators
              (@HHG._statistic counter_rng) (-2) Hr) as [Hi Hks].
  split.
  - exact (Hi (arange 5) (arange 5) 1 (new_HHG, 0%nat)
             (stat_of run_negative) (pvalue_of run_negative)
             (final run_negative) Hb).
  - exact (Hks [arange 3; arange 2] 1 (new_KSample, 1%nat)
             (stat_of run_KSample_negative)
             (pvalue_of run_KSample_negative)
             (final run_KSample_negative) Hk).
Defined.


Lemma HHG_test_statistic_witness :
  @HHG.test counter_rng collaborators
    (of_array (arange 5)) (of_array (arange 5)) (PyInt 3) 1 (new_HHG, 0%nat)
  = (inr (stat_of run_HHG, pvalue_of run_HHG), final run_HHG)
  /\ (exists ax ay,
         @_CheckInputs collaborators (of_array (arange 5))
           (of_array (arange 5)) (PyInt 3) (obj.compute_distance new_HHG)
         = inr (ax, ay)
         /\ ((obj.is_distance new_HHG = true
              /\ stat_of run_HHG = _hhg ax ay)
             \/ (obj.is_distance new_HHG = false
                 /\ exists f,
                      obj.compute_distance new_HHG = Some (Callable f)
                      /\ stat_of run_HHG = _hhg (f ax) (f ay)))).
Proof.
  assert (Hb : @HHG.test counter_rng collaborators
                 (of_array (arange 5)) (of_array (arange 5)) (PyInt 3) 1
                 (new_HHG, 0%nat)
               = (inr (stat_of run_HHG, pvalue_of run_HHG), final run_HHG))
    by (vm_compute; reflexivity).
  split; [exact Hb|].
  exact (@HHG_test_statistic counter_rng collaborators
           (of_array (arange 5)) (of_array (arange 5)) (PyInt 3) 1
           new_HHG 0%nat (stat_of run_HHG) (pvalue_of run_HHG)
           (final run_HHG) Hb).
Defined.

Lemma stat_attribute_is_last_trial_witness :
  1 <= 3
  /\ @IndependenceTest.test counter_rng (@HHG._statistic counter_rng)
       (arange 5) (arange 5) (PyInt 3) 1 (new_HHG, 0%nat)
     = (inr (stat_of run_base, pvalue_of run_base), final run_base)
  /\ (exists nd,
         obj.null_dist (fst (final run_base)) = Some nd
         /\ obj.stat (fst (final run_base)) = Some (last nd 0%Q)
         /\ obj.pvalue (fst (final run_base)) = Some (pvalue_of run_base)).
Proof.
  assert (Hr : 1 <= 3) by lia.
  assert (Hb : @IndependenceTest.test counter_rng
                 (@HHG._statistic counter_rng)
                 (arange 5) (arange 5) (PyInt 3) 1 (new_HHG, 0%nat)
               = (inr (stat_of run_base, pvalue_of run_base), final run_base))
    by (vm_compute; reflexivity).
  split; [exact Hr|]. split; [exact Hb|].
  exact (@stat_attribute_is_last_trial counter_rng
           (arange 5) (arange 5) 3 (new_HHG, 0%nat) (final run_base)
           (stat_of run_base) (pvalue_of run_base) Hr Hb).
Defined.

Lemma failed_test_keeps_no_result_witness :
  @HHG.test counter_rng collaborators (of_array (arange 3))
    (of_array (arange 3)) (PyInt 1000) (-1) (new_HHG, 7%nat)
  = (inl ValueError, (new_HHG, 7%nat))
  /\ obj.null_dist (fst (new_HHG, 7%nat)) = obj.null_dist new_HHG
  /\ obj.pvalue (fst (new_HHG, 7%nat)) = obj.pvalue new_HHG.
Proof.
  assert (Hb : @HHG.test counter_rng collaborators (of_array (arange 3))
                 (of_array (arange 3)) (PyInt 1000) (-1) (new_HHG, 7%nat)
               = (inl ValueError, (new_HHG, 7%nat)))
    by (vm_compute; reflexivity).
  split; [exact Hb|].
  exact (@failed_test_keeps_no_result counter_rng collaborators
           (of_array (arange 3)) (of_array (arange 3)) (PyInt 1000) (-1)
           new_HHG 7%nat ValueError (new_HHG, 7%nat) Hb).
Defined.


Lemma KSampleTest_bad_metric_raises_in_test_witness :
  @KSampleTest.__init__ collaborators cls.HHG (Some (NotCallable true))
    KSampleTest.empty
  = inr (KSampleTest.mk None None (Some (NotCallable true))
           (Some (cls.HHG,
                  HHG.__init__ (Some (NotCallable true)) obj.empty))
           None None None)
  /\ @k_sample_transform collaborators [arange 3; arange 2]
     = inr (concat [arange 3; arange 2], group_labels 0 [arange 3; arange 2])
  /\ @KSampleTest.test counter_rng collaborators [arange 3; arange 2]
       (PyInt 1000) (-1)
       (KSampleTest.mk None None (Some (NotCallable true))
          (Some (cls.HHG,
                 HHG.__init__ (Some (NotCallable true)) obj.empty))
          None None None, 4%nat)
     = (inl TypeError,
        (KSampleTest.set_v (group_labels 0 [arange 3; arange 2])
           (KSampleTest.set_u (concat [arange 3; arange 2])
              (KSampleTest.mk None None (Some (NotCallable true))
                 (Some (cls.HHG,
                        HHG.__init__ (Some (NotCallable true)) obj.empty))
                 None None None)), 4%nat)).
Proof.
  assert (Ho : @KSampleTest.__init__ collaborators cls.HHG
                 (Some (NotCallable true)) KSampleTest.empty
               = inr (KSampleTest.mk None None (Some (NotCallable true))
                        (Some (cls.HHG,
                               HHG.__init__ (Some (NotCallable true))
                                 obj.empty))
                        None None None))
    by reflexivity.
  assert (Hk : @k_sample_transform collaborators [arange 3; arange 2]
               = inr (concat [arange 3; arange 2],
                      group_labels 0 [arange 3; arange 2]))
    by reflexivity.
  split; [exact Ho|]. split; [exact Hk|].
  exact (@KSampleTest_bad_metric_raises_in_test counter_rng collaborators
           [arange 3; arange 2] (PyInt 1000) (-1) KSampleTest.empty _
           4%nat _ _ Ho Hk).
Defined.

Lemma KSampleTest_test_attributes_witness :
  @KSampleTest.test counter_rng collaborators
    [arange 3; arange 2] (PyInt 3) 1 (new_KSample, 1%nat)
  = (inr (stat_of run_KSample, pvalue_of run_KSample), final run_KSample)
  /\ (exists u v,
         @k_sample_transform collaborators [arange 3; arange 2] = inr (u, v)
         /\ KSampleTest.u (fst (final run_KSample)) = Some u
         /\ KSampleTest.v (fst (final run_KSample)) = Some v
         /\ KSampleTest.pvalue (fst (final run_KSample))
            = Some (pvalue_of run_KSample)
         /\ KSampleTest.stat (fst (final run_KSample))
            = KSampleTest.stat (fst (new_KSample, 1%nat))
         /\ KSampleTest.compute_distance (fst (final run_KSample))
            = KSampleTest.compute_distance (fst (new_KSample, 1%nat))).
Proof.
  assert (Hk : @KSampleTest.test counter_rng collaborators
                 [arange 3; arange 2] (PyInt 3) 1 (new_KSample, 1%nat)
               = (inr (stat_of run_KSample, pvalue_of run_KSample),
                  final run_KSample))
    by (vm_compute; reflexivity).
  split; [exact Hk|].
  exact (@KSampleTest_test_attributes counter_rng collaborators
           [arange 3; arange 2] (PyInt 3) 1 (new_KSample, 1%nat)
           (final run_KSample) (stat_of run_KSample)
           (pvalue_of run_KSample) Hk).
Defined.
